(** * Scheduling and document completeness of [code_example.py]

    A shallow embedding of [ConstructionWork] and [ProjectAnalyzer]
    ([calculate_duration], [create_gantt_chart],
    [analyze_project_completeness], [_generate_recommendations]) and the
    properties of the specification checked against it.

    Conventions of the embedding.
    - A Python [float] is an IEEE-754 binary64 number: [spec_float] of the
      standard library with [prec = 53], [emax = 1024].  Literals are
      written as primitive floats and read through [Prim2SF].
    - A Python [int] is a [Z].  The amount and the man-hours of a work
      are ints or floats ([pynum]), as [sample_data] has them: ints
      multiply without rounding, and an int divided by an int gives the
      float that is nearest to the quotient.
    - A naive [datetime] is the number of microseconds since
      0001-01-01T00:00:00, a [timedelta] a number of microseconds.
    - A raised exception is the [Raise] branch of [result].
    - The list [works] holds pairwise distinct objects (one per row, as
      [extract_from_estimate] builds them); the in-place mutation of
      [works[i]] is the update of position [i] of the list, and the
      dependency scan reads the list as mutated so far. *)

From Stdlib Require Import ZArith Lia.
From Stdlib Require Import Floats.SpecFloat Floats.PrimFloat Floats.FloatOps.
From stdpp Require Import base option list gmap strings.

Set Warnings "-inexact-float".
Local Open Scope string_scope.
Local Open Scope list_scope.
Local Open Scope Z_scope.

(** ** Exceptions *)

Inductive exn := ZeroDivisionError | OverflowError | ValueError.

Inductive result (A : Type) :=
| Ok (a : A)
| Raise (e : exn).
Arguments Ok {A} a.
Arguments Raise {A} e.

#[global] Instance result_ret : MRet result := fun _ a => Ok a.
#[global] Instance result_bind : MBind result := fun _ _ f m =>
  match m with
  | Ok a => f a
  | Raise e => Raise e
  end.

(** ** Python floats *)

Module PyFloat.

Definition t := spec_float.

(** The value of a float literal. *)
Definition lit (x : PrimFloat.float) : t := Prim2SF x.

Definition add : t → t → t := SFadd prec emax.
Definition mul : t → t → t := SFmul prec emax.
Definition div : t → t → t := SFdiv prec emax.
Definition ltb : t → t → bool := SFltb.
Definition leb : t → t → bool := SFleb.

Definition is_zero (x : t) : bool :=
  match x with S754_zero _ => true | _ => false end.

(** [float(n)] of an [int] ([PyLong_AsDouble]): the nearest double,
    [OverflowError] when there is none. *)
Definition of_int (n : Z) : result t :=
  match binary_normalize prec emax n 0 false with
  | S754_infinity _ => Raise OverflowError
  | y => Ok y
  end.

(** [x / n] for a float [x] and an int [n]: the int is converted, and
    a zero divisor raises. *)
Definition truediv_int (x : t) (n : Z) : result t :=
  y ← of_int n;
  if n =? 0 then Raise ZeroDivisionError else Ok (div x y).

(** [modf]: the integral part, as [PyLong_FromDouble] reads it ... *)
Definition trunc (x : t) : result Z :=
  match x with
  | S754_nan => Raise ValueError
  | S754_infinity _ => Raise OverflowError
  | S754_zero _ => Ok 0
  | S754_finite s m e => Ok (cond_Zopp s (Z.shiftl (Z.pos m) e))
  end.

(** ... and the fractional part, which carries the sign of [x]. *)
Definition frac (x : t) : t :=
  match x with
  | S754_nan => S754_nan
  | S754_infinity s | S754_zero s => S754_zero s
  | S754_finite s m e =>
      if 0 <=? e then S754_zero s
      else binary_normalize prec emax
             (cond_Zopp s (Z.land (Z.pos m) (Z.ones (- e)))) e s
  end.

(** Neither negative nor minus infinity: a NaN, a zero of either sign,
    a positive number or plus infinity. *)
Definition not_negative (x : t) : bool :=
  match x with
  | S754_finite s _ _ | S754_infinity s => negb s
  | _ => true
  end.

End PyFloat.

Abbreviation pyfloat := PyFloat.t.
Notation "# x" := (PyFloat.lit x%float) (at level 1, format "# x").

(** ** Python numbers: ints and floats *)

Inductive pynum :=
| PyInt (n : Z)
| PyFloat (x : pyfloat).

Module Num.

(** An int as the operand of an exact quotient: the mantissa is the
    int itself, with no rounding. *)
Definition exact (n : Z) : pyfloat :=
  match n with
  | Z0 => S754_zero false
  | Zpos p => S754_finite false p 0
  | Zneg p => S754_finite true p 0
  end.

(** [x * y]: two ints multiply exactly; when one operand is a float the
    other is converted to a float first. *)
Definition mul (x y : pynum) : result pynum :=
  match x, y with
  | PyInt a, PyInt b => Ok (PyInt (a * b))
  | PyInt a, PyFloat y => x ← PyFloat.of_int a; Ok (PyFloat (PyFloat.mul x y))
  | PyFloat x, PyInt b => y ← PyFloat.of_int b; Ok (PyFloat (PyFloat.mul x y))
  | PyFloat x, PyFloat y => Ok (PyFloat (PyFloat.mul x y))
  end.

(** [x / n] for an int [n].  An int divided by an int is the quotient
    of the two ints rounded once to the nearest float
    ([long_true_divide]), [OverflowError] when it is beyond the floats;
    a float is divided as a float. *)
Definition truediv_int (x : pynum) (n : Z) : result pyfloat :=
  match x with
  | PyInt a =>
      if n =? 0 then Raise ZeroDivisionError
      else match PyFloat.div (exact a) (exact n) with
           | S754_infinity _ => Raise OverflowError
           | q => Ok q
           end
  | PyFloat x => PyFloat.truediv_int x n
  end.

(** [0 <= x]. *)
Definition not_below_zero (x : pynum) : bool :=
  match x with
  | PyInt n => 0 <=? n
  | PyFloat x => PyFloat.leb #0 x
  end.

End Num.

(** ** Document completeness *)

Record Completeness := {
  completeness_percent : pyfloat;
  missing_documents : list string;
  recommendations : list string;
}.

(** The [criteria] dict, in insertion order: key, document name, weight.
    The int weights and the ints [0], [4] and [100] below are exact as
    doubles, and sums and quotients of them are the same numbers in int
    and in float arithmetic. *)
Definition criteria : list (string * (string * pyfloat)) :=
  [ ("has_technical_task", ("Техническое задание", #1));
    ("has_estimate", ("Смета с трудозатратами", #2));
    ("has_schedule", ("График работ", #1));
    ("has_visual_plans", ("Визуальные планы", #0.5)) ].

Definition max_score : Z := 4.

Definition contains (doc : string) (docs : list string) : bool :=
  bool_decide (doc ∈ docs).

Definition _generate_recommendations (missing_docs : list string) : list string :=
  let recommendations := [] in
  let recommendations :=
    if contains "Техническое задание" missing_docs
    then recommendations ++ ["Запросить ТЗ у заказчика или найти аналогичный проект"]
    else recommendations in
  let recommendations :=
    if contains "Смета с трудозатратами" missing_docs
    then recommendations ++ ["Использовать средние трудозатраты по аналогичным работам"]
    else recommendations in
  let recommendations :=
    if contains "График работ" missing_docs
    then recommendations ++ ["Восстановить график из сметы через расчёт трудозатрат"]
    else recommendations in
  recommendations.

(** One turn of the loop over [criteria.items()]. *)
Definition score_criterion (files_info : gmap string bool)
    (acc : pyfloat * list string) (c : string * (string * pyfloat))
    : pyfloat * list string :=
  let '(completeness_score, missing_docs) := acc in
  let '(criterion, (doc_name, weight)) := c in
  if default false (files_info !! criterion)
  then (PyFloat.add completeness_score weight, missing_docs)
  else (completeness_score, missing_docs ++ [doc_name]).

Definition analyze_project_completeness (files_info : gmap string bool)
    : result Completeness :=
  let '(completeness_score, missing_docs) :=
    foldl (score_criterion files_info) (#0, []) criteria in
  ratio ← PyFloat.truediv_int completeness_score max_score;
  Ok {| completeness_percent := PyFloat.mul ratio #100;
        missing_documents := missing_docs;
        recommendations := _generate_recommendations missing_docs |}.

(** The flags of the two extreme inputs. *)
Definition all_flags (b : bool) : gmap string bool :=
  list_to_map ((λ c, (c.1, b)) <$> criteria).

(** ** Dates

    [datetime] and [timedelta] of the Python standard library, as far as
    the scheduler uses them. *)

Definition datetime := Z.
Definition timedelta := Z.

Module Datetime.

Definition us_per_day : Z := 86400000000.

(** The ordinal of a date of the proleptic Gregorian calendar, day 1
    being 0001-01-01 ([_ymd2ord]). *)
Definition is_leap (year : Z) : bool :=
  (year mod 4 =? 0) && (negb (year mod 100 =? 0) || (year mod 400 =? 0)).

Definition days_before_year (year : Z) : Z :=
  let y := year - 1 in
  y * 365 + y / 4 - y / 100 + y / 400.

Definition days_before_month (year month : Z) : Z :=
  nth (Z.to_nat month) [-1; 0; 31; 59; 90; 120; 151; 181; 212; 243; 273; 304; 334] 0
  + (if (2 <? month) && is_leap year then 1 else 0).

Definition ymd2ord (year month day : Z) : Z :=
  days_before_year year + days_before_month year month + day.

(** [datetime(year, month, day)], for a date of the calendar. *)
Definition of_ymd (year month day : Z) : datetime :=
  (ymd2ord year month day - 1) * us_per_day.

(** [datetime.max] is 9999-12-31T23:59:59.999999. *)
Definition max : datetime := 3652059 * us_per_day - 1.

(** [datetime + timedelta]: a result outside of the years 1..9999
    raises. *)
Definition add (d : datetime) (delta : timedelta) : result datetime :=
  let r := d + delta in
  if (0 <=? r) && (r <=? max) then Ok r else Raise OverflowError.

(** A [timedelta] holds at most 999999999 days either way. *)
Definition new_delta (us : Z) : result timedelta :=
  let days := us / us_per_day in
  if (-999999999 <=? days) && (days <=? 999999999) then Ok us
  else Raise OverflowError.

(** The rounding of the microseconds left over, a number between -1 and
    1, to the nearest integer, a tie going to the side that makes the
    total [x] even. *)
Definition round_leftover (leftover : pyfloat) (x : Z) : Z :=
  let away := match leftover with
              | S754_finite true _ _ => -1
              | _ => 1
              end in
  match SFcompare (SFabs leftover) #0.5 with
  | Some Gt => away
  | Some Eq => if Z.odd x then away else 0
  | _ => 0
  end.

(** [timedelta(days=days)] for a float [days]: the whole days are
    exact, the fraction of a day is multiplied in float arithmetic and
    rounded to a whole number of microseconds. *)
Definition timedelta_days (days : pyfloat) : result timedelta :=
  intpart ← PyFloat.trunc days;
  let sum := intpart * us_per_day in
  let fracpart := PyFloat.frac days in
  if PyFloat.is_zero fracpart then new_delta sum
  else
    let dnum := PyFloat.mul #86400000000 fracpart in
    intpart ← PyFloat.trunc dnum;
    let x := sum + intpart in
    new_delta (x + round_leftover (PyFloat.frac dnum) x).

End Datetime.

(** ** Works *)

Record ConstructionWork := {
  name : string;
  unit : string;
  amount : pynum;
  man_hours_per_unit : pynum;
  dependencies : list string;
  start_date : option datetime;
  end_date : option datetime;
}.

(** [work.start_date = d] and [work.end_date = d]. *)
Definition set_start_date (work : ConstructionWork) (d : datetime) : ConstructionWork :=
  {| name := name work; unit := unit work; amount := amount work;
     man_hours_per_unit := man_hours_per_unit work;
     dependencies := dependencies work;
     start_date := Some d; end_date := end_date work |}.

Definition set_end_date (work : ConstructionWork) (d : datetime) : ConstructionWork :=
  {| name := name work; unit := unit work; amount := amount work;
     man_hours_per_unit := man_hours_per_unit work;
     dependencies := dependencies work;
     start_date := start_date work; end_date := Some d |}.

(** The fields that are set when a work is built and never assigned
    afterwards. *)
Definition description (work : ConstructionWork)
    : string * string * pynum * pynum * list string :=
  (name work, unit work, amount work, man_hours_per_unit work, dependencies work).

Record ProjectAnalyzer := {
  workers_count : Z;
  workday_hours : Z;
}.

Definition calculate_duration (self : ProjectAnalyzer) (work : ConstructionWork)
    : result pyfloat :=
  total_hours ← Num.mul (man_hours_per_unit work) (amount work);
  Num.truediv_int total_hours (workday_hours self * workers_count self).

(** The rows of [sample_data], which [extract_from_estimate] turns into
    works whatever its argument. *)
Definition sample_data : list (string * string * pynum * pynum * list string) :=
  [ ("Устройство асфальтового покрытия", "м2", PyInt 500, PyFloat #2.4, []);
    ("Установка скамеек", "шт", PyInt 15, PyInt 20, ["Подготовка территории"]);
    ("Посадка деревьев", "шт", PyInt 30, PyInt 8, ["Устройство покрытия"]);
    ("Монтаж освещения", "шт", PyInt 20, PyInt 12, ["Устройство покрытия"]) ].

Definition extract_from_estimate : list ConstructionWork :=
  (λ '(n, u, a, h, deps),
     {| name := n; unit := u; amount := a; man_hours_per_unit := h;
        dependencies := deps; start_date := None; end_date := None |})
    <$> sample_data.

(** ** The schedule *)

(** [for dep_work in works: if dep_work.name == dep_name and
    dep_work.end_date: max_end_date = max(max_end_date, dep_work.end_date)] *)
Definition scan_works (works : list ConstructionWork) (dep_name : string)
    (max_end_date : datetime) : datetime :=
  foldl (λ max_end_date dep_work,
           if String.eqb (name dep_work) dep_name then
             match end_date dep_work with
             | Some e => Z.max max_end_date e
             | None => max_end_date
             end
           else max_end_date)
        max_end_date works.

(** [for dep_name in work.dependencies: ...], from [max_end_date =
    start_date]. *)
Definition latest_end_date (works : list ConstructionWork)
    (deps : list string) (start_date : datetime) : datetime :=
  foldl (λ max_end_date dep_name, scan_works works dep_name max_end_date)
        start_date deps.

(** The body of the loop [for work in works], for the work at position
    [i] of [works]. *)
Definition schedule_work (self : ProjectAnalyzer) (start_date : datetime)
    (i : nat) (works : list ConstructionWork) : result (list ConstructionWork) :=
  match works !! i with
  | None => Ok works
  | Some work =>
      work_duration ← calculate_duration self work;
      let work := set_start_date work start_date in
      delta ← Datetime.timedelta_days work_duration;
      end_date ← Datetime.add start_date delta;
      let work := set_end_date work end_date in
      let works := <[i:=work]> works in
      match dependencies work with
      | [] => Ok works
      | _ :: _ =>
          let max_end_date := latest_end_date works (dependencies work) start_date in
          let work := set_start_date work max_end_date in
          delta ← Datetime.timedelta_days work_duration;
          end_date ← Datetime.add max_end_date delta;
          let work := set_end_date work end_date in
          Ok (<[i:=work]> works)
      end
  end.

(** A loop over positions that stops at the first exception. *)
Fixpoint for_each {S : Type} (body : nat → S → result S) (positions : list nat)
    (s : S) : result S :=
  match positions with
  | [] => Ok s
  | i :: positions => s ← body i s; for_each body positions s
  end.

(** [create_gantt_chart]: the works as the loop of lines 77-92 leaves
    them.  The [DataFrame] built afterwards only reads them. *)
Definition create_gantt_chart (self : ProjectAnalyzer)
    (works : list ConstructionWork) (start_date : datetime)
    : result (list ConstructionWork) :=
  for_each (schedule_work self start_date) (seq 0 (length works)) works.

(** ** Notions used in the statements *)

(** A work with both dates assigned: it starts at [s] and lasts
    [delta]. *)
Definition scheduled (work : ConstructionWork) (s : datetime) (delta : timedelta)
    : ConstructionWork :=
  set_end_date (set_start_date work s) (s + delta).

(** A float that is a NaN or carries the sign [s]. *)
Definition signed (s : bool) (x : pyfloat) : Prop :=
  match x with
  | S754_nan => True
  | S754_zero s' | S754_infinity s' | S754_finite s' _ _ => s' = s
  end.

(** A number that is not negative: an int from zero on, or a float
    that is not negative. *)
Definition num_not_negative (x : pynum) : Prop :=
  match x with
  | PyInt n => 0 ≤ n
  | PyFloat x => PyFloat.not_negative x = true
  end.

(** The analyzer of [demonstrate_workflow], its first work and its
    project start. *)
Definition demo : ProjectAnalyzer := {| workers_count := 2; workday_hours := 8 |}.

Definition pavement : ConstructionWork :=
  {| name := "Устройство асфальтового покрытия"; unit := "м2";
     amount := PyInt 500; man_hours_per_unit := PyFloat #2.4; dependencies := [];
     start_date := None; end_date := None |}.

Definition project_start : datetime := Datetime.of_ymd 2024 6 1.

(** A work that depends on the first one, under its real name, and a
    work that depends on itself. *)
Definition lighting : ConstructionWork :=
  {| name := "Монтаж освещения"; unit := "шт";
     amount := PyInt 20; man_hours_per_unit := PyInt 12;
     dependencies := ["Устройство асфальтового покрытия"];
     start_date := None; end_date := None |}.

Definition planting : ConstructionWork :=
  {| name := "Посадка деревьев"; unit := "шт";
     amount := PyInt 30; man_hours_per_unit := PyInt 8;
     dependencies := ["Посадка деревьев"];
     start_date := None; end_date := None |}.

(** The works [lighting] and [pavement], in this order, as a first run
    from [project_start] leaves them: 15 and 75 days long. *)
Definition rescheduled : list ConstructionWork :=
  [ scheduled lighting project_start (15 * Datetime.us_per_day);
    scheduled pavement project_start (75 * Datetime.us_per_day) ].

(** ** The table of the chart and the flags of the analysis *)

(** The column "Длительность (дней)" of the table:
    [round((work.end_date - work.start_date).days, 1)].  The [days] of a
    [timedelta] are its whole days, rounded down, an int that [round]
    returns as it is.  [None] is the [TypeError] of a date that is not
    set. *)
Definition duration_days (work : ConstructionWork) : option Z :=
  match start_date work, end_date work with
  | Some s, Some e => Some ((e - s) / Datetime.us_per_day)
  | _, _ => None
  end.

(** What [files_info.get(criterion, False)] returns. *)
Definition flag (files_info : gmap string bool) (criterion : string) : bool :=
  default false (files_info !! criterion).

(** The mapping that gives the four keys of [criteria] these values. *)
Definition flags (technical_task estimate schedule visual_plans : bool)
    : gmap string bool :=
  list_to_map [ ("has_technical_task", technical_task);
                ("has_estimate", estimate);
                ("has_schedule", schedule);
                ("has_visual_plans", visual_plans) ].

(** Two works that the scan for [deps] cannot tell apart: they are the
    same, or neither is named in [deps]. *)
Definition alike (deps : list string) (w1 w2 : ConstructionWork) : Prop :=
  w1 = w2 ∨ ((name w1 ∉ deps) ∧ (name w2 ∉ deps)).

(** * Properties *)

Lemma Ok_bind {A B} (a : A) (f : A → result B) : Ok a ≫= f = f a.
Proof. reflexivity. Qed.

Lemma bind_Ok {A B} (m : result A) (f : A → result B) (b : B) :
  m ≫= f = Ok b → ∃ a, m = Ok a ∧ f a = Ok b.
Proof. destruct m as [a|e]; simpl; [eauto | discriminate]. Qed.

(** ** Document completeness *)

Lemma of_int_max_score : PyFloat.of_int max_score = Ok #4.
Proof. reflexivity. Qed.

Lemma truediv_max_score (x : pyfloat) :
  PyFloat.truediv_int x max_score = Ok (PyFloat.div x #4).
Proof. unfold PyFloat.truediv_int. rewrite of_int_max_score. reflexivity. Qed.

Lemma foldl_score_ext (m1 m2 : gmap string bool) (cs : list (string * (string * pyfloat))) acc :
  (∀ k, default false (m1 !! k) = default false (m2 !! k)) →
  foldl (score_criterion m1) acc cs = foldl (score_criterion m2) acc cs.
Proof.
  intros Hget. revert acc.
  induction cs as [|[k [doc w]] cs IH]; intros [score missing]; simpl; [done|].
  rewrite Hget. apply IH.
Qed.

Lemma get_insert_false (m : gmap string bool) (k k' : string) :
  m !! k = None →
  default false (<[k:=false]> m !! k') = default false (m !! k').
Proof.
  intros Hk. destruct (decide (k = k')) as [<-|Hne].
  - by rewrite lookup_insert_eq, Hk.
  - by rewrite lookup_insert_ne.
Qed.

(** C1, as the code has it: with every flag true the score is
    1 + 2 + 1 + 0.5 = 4.5 against [max_score = 4], so that the percentage
    is 112.5 and not 100; nothing is missing and nothing is recommended. *)
Theorem all_true_scores_112_5 :
  analyze_project_completeness (all_flags true)
  = Ok {| completeness_percent := #112.5;
          missing_documents := [];
          recommendations := [] |}
  ∧ #112.5 ≠ #100
  ∧ PyFloat.ltb #100 #112.5 = true.
Proof. split; [vm_compute; reflexivity | split; [vm_compute; discriminate | reflexivity]]. Qed.

(** C6: with every flag false, and with no flag at all, the percentage
    is 0, the missing documents are the four document names in the order
    of [criteria], and there are three recommendations; a missing
    "Визуальные планы" alone recommends nothing. *)
Theorem all_false_scores_0 :
  ∀ files_info, files_info = all_flags false ∨ files_info = ∅ →
  ∃ r, analyze_project_completeness files_info = Ok r
     ∧ completeness_percent r = #0
     ∧ missing_documents r = (λ c, c.2.1) <$> criteria
     ∧ length (missing_documents r) = 4%nat
     ∧ length (recommendations r) = 3%nat
     ∧ _generate_recommendations ["Визуальные планы"] = [].
Proof.
  intros files_info [-> | ->]; eexists; (split; [vm_compute; reflexivity|]);
    repeat split; vm_compute; reflexivity.
Qed.

Lemma all_false_scores_0_witness :
  ∃ r, analyze_project_completeness ∅ = Ok r
     ∧ completeness_percent r = #0
     ∧ missing_documents r = (λ c, c.2.1) <$> criteria
     ∧ length (missing_documents r) = 4%nat
     ∧ length (recommendations r) = 3%nat
     ∧ _generate_recommendations ["Визуальные планы"] = [].
Proof. apply (all_false_scores_0 ∅). right. reflexivity. Defined.

(** C9: a key that is absent from [files_info] counts as [False]: the
    turn of the loop for it leaves the score as it is and appends the
    document name, the whole analysis is the one of the mapping with the
    key set to [False], and no exception is raised. *)
Theorem absent_key_is_false (files_info : gmap string bool) (criterion : string) :
  files_info !! criterion = None →
  (∀ score missing doc_name weight,
      score_criterion files_info (score, missing) (criterion, (doc_name, weight))
      = (score, missing ++ [doc_name]))
  ∧ analyze_project_completeness (<[criterion:=false]> files_info)
    = analyze_project_completeness files_info
  ∧ (∃ r, analyze_project_completeness files_info = Ok r
        ∧ ∀ doc_name weight, (criterion, (doc_name, weight)) ∈ criteria →
                             doc_name ∈ missing_documents r).
Proof.
  intros Habsent. split; [|split].
  - intros score missing doc_name weight. unfold score_criterion.
    by rewrite Habsent.
  - unfold analyze_project_completeness.
    by rewrite (foldl_score_ext _ files_info) by (intros; by apply get_insert_false).
  - unfold analyze_project_completeness.
    assert (Hmiss : ∀ cs acc doc_name weight,
               (criterion, (doc_name, weight)) ∈ cs ∨ doc_name ∈ acc.2 →
               doc_name ∈ (foldl (score_criterion files_info) acc cs).2).
    { induction cs as [|[k [doc w]] cs IH]; intros [score missing] d wt Hin.
      - destruct Hin as [Hin|Hin]; [by apply elem_of_nil in Hin | done].
      - simpl. apply (IH _ d wt). destruct Hin as [Hin|Hin].
        + apply elem_of_cons in Hin as [Heq|Hin]; [|by left].
          injection Heq as <- <- <-. rewrite Habsent. simpl. right.
          apply elem_of_app. right. by apply list_elem_of_singleton.
        + right. destruct (default false (files_info !! k)); simpl; [done|].
          apply elem_of_app. by left. }
    destruct (foldl (score_criterion files_info) (#0, []) criteria)
      as [score missing] eqn:Hfold.
    rewrite truediv_max_score. eexists. split; [reflexivity|].
    intros doc_name weight Hin. simpl.
    change missing with (score, missing).2. rewrite <- Hfold.
    apply (Hmiss _ _ doc_name weight). by left.
Qed.

Lemma absent_key_is_false_witness :
  (∀ score missing doc_name weight,
      score_criterion {["has_estimate" := true]} (score, missing)
        ("has_schedule", (doc_name, weight))
      = (score, missing ++ [doc_name]))
  ∧ analyze_project_completeness (<["has_schedule":=false]> {["has_estimate" := true]})
    = analyze_project_completeness {["has_estimate" := true]}
  ∧ (∃ r, analyze_project_completeness {["has_estimate" := true]} = Ok r
        ∧ ∀ doc_name weight, ("has_schedule", (doc_name, weight)) ∈ criteria →
                             doc_name ∈ missing_documents r).
Proof. apply (absent_key_is_false {["has_estimate" := true]} "has_schedule"). reflexivity. Defined.

(** ** Float arithmetic: signs *)

Lemma binary_round_aux_signed s m e l :
  signed s (binary_round_aux prec emax s m e l).
Proof.
  unfold binary_round_aux.
  destruct (shr_fexp prec emax m e l) as [mrs' e'].
  destruct (shr_fexp prec emax _ e' loc_Exact) as [mrs'' e''].
  destruct (shr_m mrs''); simpl; [done| |done].
  by destruct (e'' <=? emax - prec).
Qed.

Lemma binary_normalize_signed m e :
  0 ≤ m → signed false (binary_normalize prec emax m e false).
Proof.
  destruct m as [|p|p]; intros Hm; simpl; [done| |lia].
  unfold binary_round. destruct (shl_align _ _ _) as [mz ez].
  apply binary_round_aux_signed.
Qed.

Lemma signed_not_negative x : signed false x → PyFloat.not_negative x = true.
Proof. destruct x as [s|s| |s m e]; simpl; try done; by intros ->. Qed.

Lemma mul_not_negative x y :
  PyFloat.not_negative x = true → PyFloat.not_negative y = true →
  PyFloat.not_negative (PyFloat.mul x y) = true.
Proof.
  destruct x as [sx|[]| |[] mx ex], y as [sy|[]| |[] my ey]; simpl; try done.
  intros _ _. apply signed_not_negative, binary_round_aux_signed.
Qed.

Lemma div_not_negative x y :
  PyFloat.not_negative x = true → signed false y →
  PyFloat.not_negative (PyFloat.div x y) = true.
Proof.
  destruct x as [sx|[]| |[] mx ex], y as [sy|sy| |sy my ey]; simpl;
    try done; intros _ ->; try done.
  destruct (SFdiv_core_binary _ _ _ _ _ _) as [[mz ez] lz].
  apply signed_not_negative, binary_round_aux_signed.
Qed.

Lemma of_int_signed n y : 0 ≤ n → PyFloat.of_int n = Ok y → signed false y.
Proof.
  intros Hn. unfold PyFloat.of_int.
  pose proof (binary_normalize_signed n 0 Hn) as Hs.
  destruct (binary_normalize prec emax n 0 false); try done;
    intros [= <-]; done.
Qed.

Lemma lit_0 : #0 = S754_zero false.
Proof. reflexivity. Qed.

Lemma leb_0_not_negative x : PyFloat.leb #0 x = true → PyFloat.not_negative x = true.
Proof. rewrite lit_0. by destruct x as [s|[]| |[] m e]. Qed.

Lemma ltb_0_not_negative x : PyFloat.ltb #0 x = true → PyFloat.not_negative x = true.
Proof. rewrite lit_0. by destruct x as [s|[]| |[] m e]. Qed.

(** ** [timedelta]: a duration that is not negative gives a delta that
    is not negative *)

Lemma trunc_not_negative x n :
  PyFloat.not_negative x = true → PyFloat.trunc x = Ok n → 0 ≤ n.
Proof.
  destruct x as [s|s| |[] m e]; simpl; try done; intros _ [= <-]; [lia|].
  by apply Z.shiftl_nonneg.
Qed.

Lemma frac_not_negative x :
  PyFloat.not_negative x = true → PyFloat.not_negative (PyFloat.frac x) = true.
Proof.
  destruct x as [s|s| |[] m e]; simpl; try done. intros _.
  destruct (0 <=? e); [done|].
  apply signed_not_negative, binary_normalize_signed.
  apply Z.land_nonneg. left. lia.
Qed.

Lemma round_leftover_not_negative leftover x :
  PyFloat.not_negative leftover = true → 0 ≤ Datetime.round_leftover leftover x.
Proof.
  intros Hl. unfold Datetime.round_leftover.
  destruct (SFcompare _ _) as [[]|]; try lia;
    destruct leftover as [s|s| |[] m e]; try done; try lia;
    destruct (Z.odd x); lia.
Qed.

Lemma new_delta_Ok us delta : Datetime.new_delta us = Ok delta → delta = us.
Proof. unfold Datetime.new_delta. by destruct (_ && _); intros [= <-]. Qed.

Lemma timedelta_days_not_negative days delta :
  PyFloat.not_negative days = true →
  Datetime.timedelta_days days = Ok delta → 0 ≤ delta.
Proof.
  intros Hdays. unfold Datetime.timedelta_days. intros Hrun.
  apply bind_Ok in Hrun as (intpart & Hint & Hrun).
  apply (trunc_not_negative _ _ Hdays) in Hint.
  assert (0 ≤ intpart * Datetime.us_per_day) by (unfold Datetime.us_per_day; lia).
  destruct (PyFloat.is_zero (PyFloat.frac days)).
  { apply new_delta_Ok in Hrun as ->. done. }
  apply bind_Ok in Hrun as (intpart' & Hint' & Hrun).
  assert (Hdnum : PyFloat.not_negative
                    (PyFloat.mul #86400000000 (PyFloat.frac days)) = true).
  { apply mul_not_negative; [reflexivity | by apply frac_not_negative]. }
  apply (trunc_not_negative _ _ Hdnum) in Hint'.
  apply new_delta_Ok in Hrun as ->.
  pose proof (round_leftover_not_negative _
                (intpart * Datetime.us_per_day + intpart')
                (frac_not_negative _ Hdnum)).
  lia.
Qed.

Lemma add_Ok d delta r : Datetime.add d delta = Ok r → r = d + delta.
Proof. unfold Datetime.add. by destruct (_ && _); intros [= <-]. Qed.

(** ** The dependency scan *)

(** The scan for one name returns the latest of [m] and of the end
    dates of the works of that name that have one. *)
Lemma scan_works_spec works dep_name m :
  m ≤ scan_works works dep_name m
  ∧ (scan_works works dep_name m = m
     ∨ ∃ w, w ∈ works ∧ name w = dep_name
            ∧ end_date w = Some (scan_works works dep_name m))
  ∧ (∀ w e, w ∈ works → name w = dep_name → end_date w = Some e →
            e ≤ scan_works works dep_name m).
Proof.
  unfold scan_works. revert m.
  induction works as [|w0 works IH]; intros m; simpl.
  { split; [lia|]. split; [by left|]. intros w e Hin. by apply elem_of_nil in Hin. }
  destruct (String.eqb_spec (name w0) dep_name) as [Hname|Hname];
    [destruct (end_date w0) as [e0|] eqn:Hend|].
  - destruct (IH (Z.max m e0)) as (Hle & Hor & Hub). split; [lia|]. split.
    + destruct Hor as [Heq|(w & Hin & Hw & He)].
      * rewrite Heq. destruct (Z.max_spec m e0) as [[_ ->]|[_ ->]]; [|by left].
        right. exists w0. split; [apply elem_of_cons; by left|done].
      * right. exists w. split; [apply elem_of_cons; by right|done].
    + intros w e Hin Hw He. apply elem_of_cons in Hin as [->|Hin]; [|by eapply Hub].
      rewrite Hend in He. injection He as <-. lia.
  - destruct (IH m) as (Hle & Hor & Hub). split; [done|]. split.
    + destruct Hor as [Heq|(w & Hin & Hw & He)]; [by left|].
      right. exists w. split; [apply elem_of_cons; by right|done].
    + intros w e Hin Hw He. apply elem_of_cons in Hin as [->|Hin]; [|by eapply Hub].
      congruence.
  - destruct (IH m) as (Hle & Hor & Hub). split; [done|]. split.
    + destruct Hor as [Heq|(w & Hin & Hw & He)]; [by left|].
      right. exists w. split; [apply elem_of_cons; by right|done].
    + intros w e Hin Hw He. apply elem_of_cons in Hin as [->|Hin]; [|by eapply Hub].
      congruence.
Qed.

(** The scan for all the names of [deps] returns the latest of [m] and
    of the end dates of the works named in [deps] that have one. *)
Lemma latest_end_date_spec works deps m :
  m ≤ latest_end_date works deps m
  ∧ (latest_end_date works deps m = m
     ∨ ∃ w, w ∈ works ∧ name w ∈ deps
            ∧ end_date w = Some (latest_end_date works deps m))
  ∧ (∀ w e, w ∈ works → name w ∈ deps → end_date w = Some e →
            e ≤ latest_end_date works deps m).
Proof.
  unfold latest_end_date. revert m.
  induction deps as [|dep_name deps IH]; intros m; simpl.
  { split; [lia|]. split; [by left|]. intros w e _ Hin. by apply elem_of_nil in Hin. }
  destruct (scan_works_spec works dep_name m) as (Hle1 & Hor1 & Hub1).
  destruct (IH (scan_works works dep_name m)) as (Hle & Hor & Hub).
  split; [lia|]. split.
  - destruct Hor as [Heq|(w & Hin & Hw & He)].
    + rewrite Heq. destruct Hor1 as [?|(w & Hin & Hw & He)]; [by left|].
      right. exists w. split; [done|]. split; [apply elem_of_cons; by left|done].
    + right. exists w. split; [done|]. split; [apply elem_of_cons; by right|done].
  - intros w e Hin Hw He. apply elem_of_cons in Hw as [Hw|Hw]; [|by eapply Hub].
    specialize (Hub1 w e Hin Hw He). lia.
Qed.

(** ** Loops over positions *)

Lemma for_each_app {S} (body : nat → S → result S) l1 l2 s :
  for_each body (l1 ++ l2) s = for_each body l1 s ≫= for_each body l2.
Proof.
  revert s. induction l1 as [|i l1 IH]; intros s; simpl; [done|].
  destruct (body i s) as [s'|e]; simpl; [apply IH|done].
Qed.

Lemma seq_split_at (n i : nat) :
  (i < n)%nat → seq 0 n = seq 0 i ++ i :: seq (S i) (n - S i).
Proof.
  intros Hi. replace n with (i + S (n - S i))%nat at 1 by lia.
  by rewrite seq_app.
Qed.

Section Run.

(** The analyzer and the project start of the run. *)
Context (self : ProjectAnalyzer) (sd : datetime).

(** ** One turn of the loop *)

(** The start that the turn for [work] at position [i] settles on, the
    tentative dates being already written in [works]. *)
Lemma schedule_work_Ok i works works' work :
  works !! i = Some work →
  schedule_work self sd i works = Ok works' →
  ∃ duration delta s,
    calculate_duration self work = Ok duration
    ∧ Datetime.timedelta_days duration = Ok delta
    ∧ s = match dependencies work with
          | [] => sd
          | _ :: _ => latest_end_date (<[i:=scheduled work sd delta]> works)
                        (dependencies work) sd
          end
    ∧ works' = <[i:=scheduled work s delta]> works.
Proof.
  intros Hwork. unfold schedule_work. rewrite Hwork. intros Hrun.
  apply bind_Ok in Hrun as (duration & Hduration & Hrun).
  apply bind_Ok in Hrun as (delta & Hdelta & Hrun).
  apply bind_Ok in Hrun as (e & He & Hrun).
  apply add_Ok in He as ->.
  exists duration, delta. simpl in Hrun.
  destruct (dependencies work) as [|dep_name deps] eqn:Hdeps.
  - exists sd. injection Hrun as <-. done.
  - eexists. split; [done|]. split; [done|]. split; [reflexivity|].
    rewrite Hdelta in Hrun. simpl in Hrun.
    apply bind_Ok in Hrun as (e & He & Hrun).
    apply add_Ok in He as ->. injection Hrun as <-.
    rewrite list_insert_insert_eq. reflexivity.
Qed.

Lemma schedule_work_length i works works' :
  schedule_work self sd i works = Ok works' → length works' = length works.
Proof.
  destruct (works !! i) as [work|] eqn:Hwork.
  - intros Hrun.
    destruct (schedule_work_Ok _ _ _ _ Hwork Hrun) as (? & ? & ? & _ & _ & _ & ->).
    apply length_insert.
  - unfold schedule_work. rewrite Hwork. by intros [= <-].
Qed.

Lemma schedule_work_other i j works works' :
  schedule_work self sd i works = Ok works' → i ≠ j → works' !! j = works !! j.
Proof.
  destruct (works !! i) as [work|] eqn:Hwork.
  - intros Hrun Hne.
    destruct (schedule_work_Ok _ _ _ _ Hwork Hrun) as (? & ? & ? & _ & _ & _ & ->).
    by apply list_lookup_insert_ne.
  - unfold schedule_work. rewrite Hwork. by intros [= <-].
Qed.

Lemma schedule_work_description i j works works' :
  schedule_work self sd i works = Ok works' →
  description <$> works' !! j = description <$> works !! j.
Proof.
  intros Hrun. destruct (decide (i = j)) as [<-|Hne];
    [|by rewrite (schedule_work_other _ _ _ _ Hrun Hne)].
  destruct (works !! i) as [work|] eqn:Hwork.
  - destruct (schedule_work_Ok _ _ _ _ Hwork Hrun) as (? & ? & ? & _ & _ & _ & ->).
    rewrite list_lookup_insert_eq by (by eapply lookup_lt_Some). done.
  - revert Hrun. unfold schedule_work. rewrite Hwork. intros [= <-].
    by rewrite Hwork.
Qed.

(** ** The whole loop *)

Lemma for_each_schedule_frame positions works works' :
  for_each (schedule_work self sd) positions works = Ok works' →
  length works' = length works
  ∧ (∀ j, j ∉ positions → works' !! j = works !! j)
  ∧ (∀ j, description <$> works' !! j = description <$> works !! j).
Proof.
  revert works. induction positions as [|i positions IH]; intros works; simpl.
  { by intros [= <-]. }
  intros (works1 & Hstep & Hrun)%bind_Ok.
  destruct (IH _ Hrun) as (Hlen & Hother & Hdescr). split; [|split].
  - rewrite Hlen. by eapply schedule_work_length.
  - intros j Hj. apply not_elem_of_cons in Hj as [Hne Hj].
    rewrite Hother by done. by eapply schedule_work_other.
  - intros j. rewrite Hdescr. by eapply schedule_work_description.
Qed.

(** The run, seen from position [i].  [scanned] is the list that the
    dependency scan of the turn of [i] reads: the work at [i] carries
    its tentative dates, the works after [i] are as they came in, the
    works before [i] are as they will stay.  The turn settles the dates
    of the work at [i] for good. *)
Lemma run_at works works' i work :
  create_gantt_chart self works sd = Ok works' →
  works !! i = Some work →
  ∃ scanned duration delta s,
    calculate_duration self work = Ok duration
    ∧ Datetime.timedelta_days duration = Ok delta
    ∧ scanned !! i = Some (scheduled work sd delta)
    ∧ (∀ j, (i < j)%nat → scanned !! j = works !! j)
    ∧ (∀ j, (j < i)%nat → scanned !! j = works' !! j)
    ∧ (∀ j, name <$> scanned !! j = name <$> works !! j)
    ∧ s = match dependencies work with
          | [] => sd
          | _ :: _ => latest_end_date scanned (dependencies work) sd
          end
    ∧ works' !! i = Some (scheduled work s delta).
Proof.
  intros Hrun Hwork. unfold create_gantt_chart in Hrun.
  pose proof (lookup_lt_Some _ _ _ Hwork) as Hi.
  rewrite (seq_split_at _ i Hi), for_each_app in Hrun.
  apply bind_Ok in Hrun as (before & Hbefore & Hrun). simpl in Hrun.
  apply bind_Ok in Hrun as (after & Hstep & Hafter).
  destruct (for_each_schedule_frame _ _ _ Hbefore) as (Hlen & Hin & Hdescr).
  destruct (for_each_schedule_frame _ _ _ Hafter) as (_ & Hout & _).
  assert (Hwork' : before !! i = Some work).
  { rewrite Hin; [done|]. rewrite elem_of_seq. lia. }
  destruct (schedule_work_Ok _ _ _ _ Hwork' Hstep)
    as (duration & delta & s & Hduration & Hdelta & Hs & ->).
  exists (<[i:=scheduled work sd delta]> before), duration, delta, s.
  split; [done|]. split; [done|]. split; [|split; [|split; [|split; [|split]]]].
  - apply list_lookup_insert_eq. lia.
  - intros j Hj. rewrite list_lookup_insert_ne by lia.
    apply Hin. rewrite elem_of_seq. lia.
  - intros j Hj. rewrite Hout by (rewrite elem_of_seq; lia).
    by rewrite !list_lookup_insert_ne by lia.
  - intros j. destruct (decide (i = j)) as [<-|Hne].
    + rewrite list_lookup_insert_eq by lia. by rewrite Hwork.
    + rewrite list_lookup_insert_ne by done.
      specialize (Hdescr j).
      unfold description in Hdescr.
      destruct (before !! j), (works !! j); simpl in *; congruence.
  - done.
  - rewrite Hout by (rewrite elem_of_seq; lia).
    apply list_lookup_insert_eq. lia.
Qed.

Lemma run_length works works' :
  create_gantt_chart self works sd = Ok works' → length works' = length works.
Proof. intros Hrun. by destruct (for_each_schedule_frame _ _ _ Hrun). Qed.

(** The settled start is never before the project start. *)
Lemma settled_start_ge (scanned : list ConstructionWork) (deps : list string) :
  sd ≤ match deps with
       | [] => sd
       | _ :: _ => latest_end_date scanned deps sd
       end.
Proof. destruct deps; [lia|]. apply latest_end_date_spec. Qed.

Lemma exact_signed n : 0 ≤ n → signed false (Num.exact n).
Proof. destruct n; simpl; [done|done|lia]. Qed.

Lemma not_below_zero_not_negative x :
  Num.not_below_zero x = true → num_not_negative x.
Proof.
  destruct x as [n|x]; simpl; [lia|apply leb_0_not_negative].
Qed.

Lemma num_mul_not_negative x y total :
  num_not_negative x → num_not_negative y →
  Num.mul x y = Ok total → num_not_negative total.
Proof.
  destruct x as [a|x], y as [b|y]; simpl; intros Hx Hy.
  - intros [= <-]. simpl. by apply Z.mul_nonneg_nonneg.
  - intros (x & Hconv & [= <-])%bind_Ok. simpl.
    apply mul_not_negative; [|done].
    apply signed_not_negative. by eapply of_int_signed.
  - intros (y & Hconv & [= <-])%bind_Ok. simpl.
    apply mul_not_negative; [done|].
    apply signed_not_negative. by eapply of_int_signed.
  - intros [= <-]. simpl. by apply mul_not_negative.
Qed.

Lemma num_truediv_not_negative total n duration :
  num_not_negative total → 0 < n →
  Num.truediv_int total n = Ok duration →
  PyFloat.not_negative duration = true.
Proof.
  destruct total as [a|x]; simpl; intros Htotal Hn.
  - destruct (n =? 0); [done|].
    pose proof (div_not_negative (Num.exact a) (Num.exact n)
                  (signed_not_negative _ (exact_signed a Htotal))
                  (exact_signed n ltac:(lia))) as Hsign.
    destruct (PyFloat.div _ _); try done; by intros [= <-].
  - unfold PyFloat.truediv_int. intros (y & Hy & Hdiv)%bind_Ok.
    destruct (n =? 0); [done|]. injection Hdiv as <-.
    apply div_not_negative; [done|]. eapply of_int_signed; [|exact Hy]. lia.
Qed.

Lemma calculate_duration_not_negative work duration :
  0 < workers_count self → 0 < workday_hours self →
  Num.not_below_zero (amount work) = true →
  Num.not_below_zero (man_hours_per_unit work) = true →
  calculate_duration self work = Ok duration →
  PyFloat.not_negative duration = true.
Proof.
  intros Hw Hh Hamount Hhours. unfold calculate_duration.
  intros (total & Htotal & Hdiv)%bind_Ok.
  apply (num_truediv_not_negative total
           (workday_hours self * workers_count self));
    [|apply Z.mul_pos_pos; lia|exact Hdiv].
  eapply num_mul_not_negative; [| |exact Htotal];
    by apply not_below_zero_not_negative.
Qed.

(** ** The schedule: the claims *)

(** C5: a work without dependencies starts at the project start, and
    the time from its start to its end is the [timedelta] of its
    computed duration in days. *)
Theorem no_dependencies_start_at_project_start works works' i work :
  create_gantt_chart self works sd = Ok works' →
  works !! i = Some work →
  dependencies work = [] →
  ∃ work' e duration delta,
    works' !! i = Some work'
    ∧ start_date work' = Some sd
    ∧ end_date work' = Some e
    ∧ calculate_duration self work = Ok duration
    ∧ Datetime.timedelta_days duration = Ok delta
    ∧ e - sd = delta.
Proof.
  intros Hrun Hwork Hdeps.
  destruct (run_at _ _ _ _ Hrun Hwork)
    as (scanned & duration & delta & s & Hduration & Hdelta & _ & _ & _ & _ & Hs & Hfinal).
  rewrite Hdeps in Hs. subst s.
  exists (scheduled work sd delta), (sd + delta), duration, delta.
  repeat split; try done. lia.
Qed.

(** C8: the run keeps the length and the order of the list, and in
    every work the name, the unit, the amount, the man-hours per unit
    and the dependencies. *)
Theorem run_changes_only_the_dates works works' :
  create_gantt_chart self works sd = Ok works' →
  length works' = length works
  ∧ ∀ i work, works !! i = Some work →
      ∃ work', works' !! i = Some work'
        ∧ name work' = name work
        ∧ unit work' = unit work
        ∧ amount work' = amount work
        ∧ man_hours_per_unit work' = man_hours_per_unit work
        ∧ dependencies work' = dependencies work.
Proof.
  intros Hrun. split; [by eapply run_length|].
  intros i work Hwork.
  destruct (run_at _ _ _ _ Hrun Hwork)
    as (_ & _ & delta & s & _ & _ & _ & _ & _ & _ & _ & Hfinal).
  by exists (scheduled work s delta).
Qed.

(** C7: with amounts and man-hours that are not below zero and a
    positive number of workers and of hours in a day, the run keeps
    every work of the list and gives each one a start and an end; the
    end is not before the start, and the time between them is the
    [timedelta] of the computed duration. *)
Theorem dates_are_set_and_ordered works works' :
  0 < workers_count self → 0 < workday_hours self →
  (∀ work, work ∈ works →
      Num.not_below_zero (amount work) = true
      ∧ Num.not_below_zero (man_hours_per_unit work) = true) →
  create_gantt_chart self works sd = Ok works' →
  length works' = length works
  ∧ ∀ i work, works !! i = Some work →
      ∃ work' s e duration delta,
        works' !! i = Some work'
        ∧ start_date work' = Some s
        ∧ end_date work' = Some e
        ∧ calculate_duration self work = Ok duration
        ∧ calculate_duration self work' = Ok duration
        ∧ Datetime.timedelta_days duration = Ok delta
        ∧ e - s = delta
        ∧ s ≤ e.
Proof.
  intros Hw Hh Hdata Hrun. split; [by eapply run_length|].
  intros i work Hwork.
  destruct (run_at _ _ _ _ Hrun Hwork)
    as (_ & duration & delta & s & Hduration & Hdelta & _ & _ & _ & _ & _ & Hfinal).
  destruct (Hdata work) as [Hamount Hhours]; [by eapply list_elem_of_lookup_2|].
  pose proof (calculate_duration_not_negative _ _ Hw Hh Hamount Hhours Hduration)
    as Hsign.
  pose proof (timedelta_days_not_negative _ _ Hsign Hdelta).
  exists (scheduled work s delta), s, (s + delta), duration, delta.
  repeat split; try done; lia.
Qed.

(** C2: a work whose dependencies name only works that come later in
    the list, without an end date as works have them before they are
    scheduled, or no work at all, starts at the project start and ends
    its own duration later; the names that are not resolved raise no
    exception. *)
Theorem unresolved_dependencies_start_at_project_start
    works works' i work :
  create_gantt_chart self works sd = Ok works' →
  works !! i = Some work →
  (∀ j other, works !! j = Some other →
              name other ∈ dependencies work →
              (i < j)%nat ∧ end_date other = None) →
  ∃ work' duration delta,
    works' !! i = Some work'
    ∧ start_date work' = Some sd
    ∧ calculate_duration self work = Ok duration
    ∧ Datetime.timedelta_days duration = Ok delta
    ∧ end_date work' = Some (sd + delta).
Proof.
  intros Hrun Hwork Hlater.
  destruct (run_at _ _ _ _ Hrun Hwork)
    as (scanned & duration & delta & s & Hduration & Hdelta
        & Hat & Hafter & Hbefore & Hnames & Hs & Hfinal).
  assert (s = sd) as ->; [|by exists (scheduled work sd delta), duration, delta].
  subst s. destruct (dependencies work) as [|dep_name deps] eqn:Hdeps; [done|].
  destruct (latest_end_date_spec scanned (dep_name :: deps) sd)
    as (_ & [Heq|(w & Hin & Hw & He)] & _); [done|exfalso].
  apply list_elem_of_lookup_1 in Hin as [k Hk].
  destruct (lt_eq_lt_dec k i) as [[Hlt| ->]|Hgt].
  - specialize (Hnames k). rewrite Hk in Hnames.
    destruct (works !! k) as [w0|] eqn:Hw0; [|done].
    injection Hnames as Hname. rewrite Hname in Hw.
    destruct (Hlater _ _ Hw0 Hw). lia.
  - rewrite Hat in Hk. injection Hk as <-.
    destruct (Hlater _ _ Hwork Hw). lia.
  - rewrite (Hafter _ Hgt) in Hk.
    destruct (Hlater _ _ Hk Hw) as [_ Hnone]. rewrite Hnone in He. done.
Qed.

(** C3: with names that are unique, a work [B] whose only dependency is
    the name of a work [A] placed before it, [A] having a positive
    duration, starts when [A] ends and ends its own duration later. *)
Theorem dependent_starts_when_earlier_ends
    works works' i j A B duration_A :
  create_gantt_chart self works sd = Ok works' →
  NoDup (name <$> works) →
  works !! i = Some A →
  works !! j = Some B →
  (i < j)%nat →
  dependencies B = [name A] →
  calculate_duration self A = Ok duration_A →
  PyFloat.ltb #0 duration_A = true →
  ∃ A' B' e duration_B delta_B,
    works' !! i = Some A'
    ∧ works' !! j = Some B'
    ∧ end_date A' = Some e
    ∧ start_date B' = Some e
    ∧ calculate_duration self B = Ok duration_B
    ∧ Datetime.timedelta_days duration_B = Ok delta_B
    ∧ end_date B' = Some (e + delta_B).
Proof.
  intros Hrun Hunique HA HB Hij Hdeps Hduration_A Hpositive.
  destruct (run_at _ _ _ _ Hrun HA)
    as (scanned_A & d & delta_A & s_A & Hd & Hdelta_A & _ & _ & _ & _ & Hs_A & Hfinal_A).
  rewrite Hduration_A in Hd. injection Hd as <-.
  assert (sd ≤ s_A) by (subst s_A; apply settled_start_ge).
  assert (0 ≤ delta_A).
  { eapply timedelta_days_not_negative; [|done]. by apply ltb_0_not_negative. }
  destruct (run_at _ _ _ _ Hrun HB)
    as (scanned & duration_B & delta_B & s_B & Hduration_B & Hdelta_B
        & _ & _ & Hbefore & Hnames & Hs_B & Hfinal_B).
  rewrite Hdeps in Hs_B.
  assert (Hscanned_A : scanned !! i = Some (scheduled A s_A delta_A))
    by (by rewrite (Hbefore _ Hij)).
  assert (s_B = s_A + delta_A) as ->.
  { destruct (latest_end_date_spec scanned [name A] sd)
      as (_ & Hor & Hub). rewrite <- Hs_B in Hor, Hub.
    assert (s_A + delta_A ≤ s_B).
    { apply (Hub (scheduled A s_A delta_A)); [|by apply list_elem_of_singleton|done].
      by eapply list_elem_of_lookup_2. }
    destruct Hor as [->|(w & Hin & Hw & He)]; [lia|].
    apply list_elem_of_lookup_1 in Hin as [k Hk].
    apply list_elem_of_singleton in Hw.
    assert (k = i) as ->.
    { eapply NoDup_lookup; [exact Hunique| |].
      - rewrite list_lookup_fmap, <- Hnames, Hk. simpl. by rewrite Hw.
      - by rewrite list_lookup_fmap, HA. }
    rewrite Hscanned_A in Hk. injection Hk as <-.
    simpl in He. by injection He as <-. }
  exists (scheduled A s_A delta_A), (scheduled B (s_A + delta_A) delta_B),
    (s_A + delta_A), duration_B, delta_B.
  done.
Qed.

(** C10: a work that names itself among its dependencies, no other
    work named there having an end date when it is scanned, finds the
    end date that its own turn has just written: with a duration that
    is not below zero it starts one duration after the project start
    and ends two durations after it. *)
Theorem self_dependency_shifts_by_own_duration
    works works' i work duration delta :
  create_gantt_chart self works sd = Ok works' →
  works !! i = Some work →
  name work ∈ dependencies work →
  (∀ j other, j ≠ i → works !! j = Some other →
              name other ∈ dependencies work →
              (i < j)%nat ∧ end_date other = None) →
  calculate_duration self work = Ok duration →
  PyFloat.leb #0 duration = true →
  Datetime.timedelta_days duration = Ok delta →
  ∃ work',
    works' !! i = Some work'
    ∧ start_date work' = Some (sd + delta)
    ∧ end_date work' = Some (sd + 2 * delta).
Proof.
  intros Hrun Hwork Hself Hothers Hduration Hsign Hdelta.
  destruct (run_at _ _ _ _ Hrun Hwork)
    as (scanned & d & delta' & s & Hd & Hdelta'
        & Hat & Hafter & Hbefore & Hnames & Hs & Hfinal).
  rewrite Hduration in Hd. injection Hd as <-.
  rewrite Hdelta in Hdelta'. injection Hdelta' as <-.
  assert (0 ≤ delta).
  { eapply timedelta_days_not_negative; [|done]. by apply leb_0_not_negative. }
  assert (s = sd + delta) as ->.
  { subst s. destruct (dependencies work) as [|dep_name deps] eqn:Hdeps;
      [by apply elem_of_nil in Hself|].
    destruct (latest_end_date_spec scanned (dep_name :: deps) sd)
      as (_ & Hor & Hub).
    assert (sd + delta ≤ latest_end_date scanned (dep_name :: deps) sd).
    { apply (Hub (scheduled work sd delta)); [|done|done].
      by eapply list_elem_of_lookup_2. }
    destruct Hor as [Heq|(w & Hin & Hw & He)]; [lia|].
    apply list_elem_of_lookup_1 in Hin as [k Hk].
    destruct (decide (k = i)) as [->|Hne].
    - rewrite Hat in Hk. injection Hk as <-.
      injection He as He. symmetry. exact He.
    - exfalso. specialize (Hnames k). rewrite Hk in Hnames.
      destruct (works !! k) as [w0|] eqn:Hw0; [|done].
      injection Hnames as Hname. rewrite Hname in Hw.
      destruct (Hothers _ _ Hne Hw0 Hw) as [Hlt Hnone].
      rewrite (Hafter _ Hlt), Hw0 in Hk. injection Hk as <-.
      rewrite Hnone in He. done. }
  exists (scheduled work (sd + delta) delta).
  split; [done|]. split; [done|]. simpl. f_equal. lia.
Qed.

(** ** When the run completes *)

Lemma add_in_range d delta :
  0 ≤ d + delta ≤ Datetime.max → Datetime.add d delta = Ok (d + delta).
Proof.
  intros [Hlo Hhi]. unfold Datetime.add.
  apply Z.leb_le in Hlo as ->. by apply Z.leb_le in Hhi as ->.
Qed.

(** One turn completes when the duration of the work has a [timedelta]
    that is not negative, and twice this [timedelta] fits after the
    latest of the end dates in [works]. *)
Lemma schedule_work_completes i works work duration delta bound :
  works !! i = Some work →
  calculate_duration self work = Ok duration →
  Datetime.timedelta_days duration = Ok delta →
  0 ≤ delta →
  0 ≤ sd ≤ bound →
  (∀ other e, other ∈ works → end_date other = Some e → e ≤ bound) →
  bound + 2 * delta ≤ Datetime.max →
  ∃ s, s ≤ bound + delta
       ∧ schedule_work self sd i works = Ok (<[i:=scheduled work s delta]> works).
Proof.
  intros Hwork Hduration Hdelta Hsign Hsd Hbound Hmax.
  unfold schedule_work. rewrite Hwork, Hduration, Ok_bind. cbn beta zeta.
  rewrite Hdelta, Ok_bind. cbn beta zeta.
  rewrite add_in_range, Ok_bind by lia. cbn beta zeta.
  change (dependencies (set_end_date _ _)) with (dependencies work).
  destruct (dependencies work) as [|dep_name deps] eqn:Hdeps.
  { exists sd. split; [lia|done]. }
  rewrite Ok_bind. cbn beta zeta.
  set (scanned := <[i:=_]> works).
  destruct (latest_end_date_spec scanned (dep_name :: deps) sd) as (Hle & Hor & _).
  assert (latest_end_date scanned (dep_name :: deps) sd ≤ bound + delta) as Hs.
  { destruct Hor as [->|(w & Hin & _ & He)]; [lia|].
    apply list_elem_of_lookup_1 in Hin as [k Hk].
    destruct (decide (i = k)) as [<-|Hne].
    - unfold scanned in Hk.
      rewrite list_lookup_insert_eq in Hk by (by eapply lookup_lt_Some).
      injection Hk as <-.
      assert (sd + delta = latest_end_date scanned (dep_name :: deps) sd)
        by (injection He as He; exact He).
      lia.
    - unfold scanned in Hk. rewrite list_lookup_insert_ne in Hk by done.
      apply list_elem_of_lookup_2 in Hk. specialize (Hbound _ _ Hk He). lia. }
  exists (latest_end_date scanned (dep_name :: deps) sd). split; [done|].
  rewrite add_in_range, Ok_bind by lia. unfold scanned.
  by rewrite list_insert_insert_eq.
Qed.

Lemma for_each_schedule_completes (deltas : list timedelta) :
  ∀ (k : nat) (works : list ConstructionWork) (bound : datetime),
    (∀ j delta, deltas !! j = Some delta →
        0 ≤ delta
        ∧ ∃ work duration,
            works !! (k + j)%nat = Some work
            ∧ calculate_duration self work = Ok duration
            ∧ Datetime.timedelta_days duration = Ok delta) →
    0 ≤ sd ≤ bound →
    (∀ other e, other ∈ works → end_date other = Some e → e ≤ bound) →
    bound + 2 * foldr Z.add 0 deltas ≤ Datetime.max →
    ∃ works', for_each (schedule_work self sd) (seq k (length deltas)) works = Ok works'.
Proof.
  induction deltas as [|delta deltas IH]; intros k works bound Hworks Hsd Hbound Hmax;
    simpl in *; [by eexists|].
  destruct (Hworks 0%nat delta eq_refl)
    as (Hsign & work & duration & Hwork & Hduration & Hdelta).
  rewrite Nat.add_0_r in Hwork.
  assert (0 ≤ foldr Z.add 0 deltas) as Hsum.
  { clear -Hworks. assert (∀ j d, deltas !! j = Some d → 0 ≤ d) as Hpos
      by (intros j d Hj; by destruct (Hworks (S j) d Hj)).
    clear Hworks. induction deltas as [|d deltas IH]; simpl; [lia|].
    specialize (Hpos 0%nat d eq_refl) as Hd.
    assert (0 ≤ foldr Z.add 0 deltas); [|lia].
    apply IH. intros j d' Hj. by apply (Hpos (S j)). }
  destruct (schedule_work_completes k works work duration delta bound)
    as (s & Hs & ->); try done; [lia|]. simpl.
  apply (IH (S k) _ (bound + 2 * delta)).
  - intros j delta' Hj. destruct (Hworks (S j) delta' Hj)
      as (Hsign' & work' & duration' & Hwork' & Hrest).
    split; [done|]. exists work', duration'. split; [|done].
    rewrite list_lookup_insert_ne by lia. rewrite <- Hwork'. f_equal. lia.
  - lia.
  - intros other e Hin He. apply list_elem_of_lookup_1 in Hin as [j Hj].
    destruct (decide (k = j)) as [<-|Hne].
    + rewrite list_lookup_insert_eq in Hj by (by eapply lookup_lt_Some).
      injection Hj as <-. injection He as <-. lia.
    + rewrite list_lookup_insert_ne in Hj by done.
      apply list_elem_of_lookup_2 in Hj. specialize (Hbound _ _ Hj He). lia.
  - lia.
Qed.

(** X17: the run completes when every work has a duration whose
    [timedelta] is not negative, and twice the sum of these fits between
    [bound], a date not before the project start and the end dates that
    come in with the works, and [datetime.max]. *)
Theorem run_completes works deltas bound :
  Forall2 (λ work delta,
             0 ≤ delta
             ∧ ∃ duration, calculate_duration self work = Ok duration
                           ∧ Datetime.timedelta_days duration = Ok delta)
          works deltas →
  0 ≤ sd ≤ bound →
  (∀ work e, work ∈ works → end_date work = Some e → e ≤ bound) →
  bound + 2 * foldr Z.add 0 deltas ≤ Datetime.max →
  ∃ works', create_gantt_chart self works sd = Ok works'.
Proof.
  intros Hall Hsd Hbound Hmax. unfold create_gantt_chart.
  rewrite (Forall2_length _ _ _ Hall).
  apply (for_each_schedule_completes deltas 0 works bound); try done.
  intros j delta Hj.
  destruct (Forall2_lookup_r _ _ _ _ _ Hall Hj)
    as (work & Hwork & Hsign & duration & Hduration & Hdelta).
  split; [done|]. by exists work, duration.
Qed.

End Run.

(** C4: for hours times workers that are not zero, [calculate_duration]
    returns the man-hours per unit times the amount, divided by the
    hours times the workers, in the arithmetic of its operands: floats
    (and an int next to a float, converted) are multiplied and divided
    as floats; two ints are multiplied exactly, and the int product is
    divided with one rounding.  For 500 units at 2.4 man-hours,
    2 workers and 8 hours it returns 75.0, and the work scheduled from
    2024-06-01 ends on 2024-08-15. *)
Theorem calculate_duration_is_the_quotient :
  (∀ self work,
      workday_hours self * workers_count self ≠ 0 →
      let n := workday_hours self * workers_count self in
      match man_hours_per_unit work, amount work with
      | PyFloat h, PyFloat a =>
          ∀ d, PyFloat.of_int n = Ok d →
               calculate_duration self work
               = Ok (PyFloat.div (PyFloat.mul h a) d)
      | PyFloat h, PyInt a =>
          ∀ a' d, PyFloat.of_int a = Ok a' → PyFloat.of_int n = Ok d →
                  calculate_duration self work
                  = Ok (PyFloat.div (PyFloat.mul h a') d)
      | PyInt h, PyFloat a =>
          ∀ h' d, PyFloat.of_int h = Ok h' → PyFloat.of_int n = Ok d →
                  calculate_duration self work
                  = Ok (PyFloat.div (PyFloat.mul h' a) d)
      | PyInt h, PyInt a =>
          ∀ q, PyFloat.div (Num.exact (h * a)) (Num.exact n) = q →
               (∀ s, q ≠ S754_infinity s) →
               calculate_duration self work = Ok q
      end)
  ∧ calculate_duration demo pavement = Ok #75
  ∧ ∃ work',
      create_gantt_chart demo [pavement] (Datetime.of_ymd 2024 6 1) = Ok [work']
      ∧ start_date work' = Some (Datetime.of_ymd 2024 6 1)
      ∧ end_date work' = Some (Datetime.of_ymd 2024 8 15).
Proof.
  split; [|split].
  - intros self work Hne n. subst n. apply Z.eqb_neq in Hne.
    unfold calculate_duration.
    destruct (man_hours_per_unit work) as [h|h], (amount work) as [a|a]; simpl.
    + intros q Hq Hfinite. rewrite Hne, Hq.
      destruct q as [s|s| |s m e]; try done. by destruct (Hfinite s).
    + intros h' d Hh Hd. rewrite Hh. simpl.
      unfold PyFloat.truediv_int. rewrite Hd. simpl. by rewrite Hne.
    + intros a' d Ha Hd. rewrite Ha. simpl.
      unfold PyFloat.truediv_int. rewrite Hd. simpl. by rewrite Hne.
    + intros d Hd.
      unfold PyFloat.truediv_int. rewrite Hd. simpl. by rewrite Hne.
  - vm_compute. reflexivity.
  - eexists. split; [vm_compute; reflexivity|]. split; vm_compute; reflexivity.
Qed.

Lemma calculate_duration_is_the_quotient_witness :
  calculate_duration demo pavement
  = Ok (PyFloat.div (PyFloat.mul #2.4 #500) #16).
Proof.
  apply (proj1 calculate_duration_is_the_quotient demo pavement).
  - vm_compute. discriminate.
  - vm_compute. reflexivity.
  - vm_compute. reflexivity.
Defined.

(** Two ints are multiplied exactly and divided with one rounding:
    134217731 units at 134217731 man-hours for 7 workers and 1 hour
    take 2573485616398337.5 days, where the product rounded to a float
    first would give 2573485616398337.0. *)
Example int_fields_round_once :
  calculate_duration {| workers_count := 7; workday_hours := 1 |}
    {| name := "Устройство асфальтового покрытия"; unit := "м2";
       amount := PyInt 134217731; man_hours_per_unit := PyInt 134217731;
       dependencies := []; start_date := None; end_date := None |}
  = Ok #2573485616398337.5
  ∧ PyFloat.div (PyFloat.mul #134217731 #134217731) #7 = #2573485616398337.0.
Proof. split; vm_compute; reflexivity. Qed.

(** ** The claims at work on concrete runs *)

Lemma no_dependencies_start_at_project_start_witness :
  ∃ works',
    create_gantt_chart demo extract_from_estimate project_start = Ok works'
    ∧ ∃ work' e duration delta,
        works' !! 0%nat = Some work'
        ∧ start_date work' = Some project_start
        ∧ end_date work' = Some e
        ∧ calculate_duration demo pavement = Ok duration
        ∧ Datetime.timedelta_days duration = Ok delta
        ∧ e - project_start = delta.
Proof.
  eexists. split; [vm_compute; reflexivity|].
  apply (no_dependencies_start_at_project_start
           demo project_start extract_from_estimate _ 0 pavement).
  - vm_compute. reflexivity.
  - reflexivity.
  - reflexivity.
Defined.

(** Case analysis on the positions of a list that is given in full. *)
Ltac positions j H :=
  repeat (destruct j as [|j]; simpl in H; [|try discriminate H]).

Lemma unresolved_dependencies_start_at_project_start_witness :
  ∃ works',
    create_gantt_chart demo [lighting; pavement] project_start = Ok works'
    ∧ ∃ work' duration delta,
        works' !! 0%nat = Some work'
        ∧ start_date work' = Some project_start
        ∧ calculate_duration demo lighting = Ok duration
        ∧ Datetime.timedelta_days duration = Ok delta
        ∧ end_date work' = Some (project_start + delta).
Proof.
  eexists. split; [vm_compute; reflexivity|].
  apply (unresolved_dependencies_start_at_project_start
           demo project_start [lighting; pavement] _ 0 lighting).
  - vm_compute. reflexivity.
  - reflexivity.
  - intros j other Hj Hin. positions j Hj; injection Hj as <-.
    + apply list_elem_of_singleton in Hin. discriminate Hin.
    + split; [lia|reflexivity].
Defined.

Lemma dependent_starts_when_earlier_ends_witness :
  ∃ works',
    create_gantt_chart demo [pavement; lighting] project_start = Ok works'
    ∧ ∃ A' B' e duration_B delta_B,
        works' !! 0%nat = Some A'
        ∧ works' !! 1%nat = Some B'
        ∧ end_date A' = Some e
        ∧ start_date B' = Some e
        ∧ calculate_duration demo lighting = Ok duration_B
        ∧ Datetime.timedelta_days duration_B = Ok delta_B
        ∧ end_date B' = Some (e + delta_B).
Proof.
  eexists. split; [vm_compute; reflexivity|].
  apply (dependent_starts_when_earlier_ends
           demo project_start [pavement; lighting] _ 0 1 pavement lighting #75).
  - vm_compute. reflexivity.
  - apply NoDup_cons. split; [|apply NoDup_singleton].
    intros Hin. apply list_elem_of_singleton in Hin. discriminate Hin.
  - reflexivity.
  - reflexivity.
  - lia.
  - reflexivity.
  - vm_compute. reflexivity.
  - vm_compute. reflexivity.
Defined.

Lemma self_dependency_shifts_by_own_duration_witness :
  ∃ works',
    create_gantt_chart demo [planting] project_start = Ok works'
    ∧ ∃ work',
        works' !! 0%nat = Some work'
        ∧ start_date work' = Some (project_start + 15 * Datetime.us_per_day)
        ∧ end_date work' = Some (project_start + 2 * (15 * Datetime.us_per_day)).
Proof.
  eexists. split; [vm_compute; reflexivity|].
  apply (self_dependency_shifts_by_own_duration
           demo project_start [planting] _ 0 planting #15).
  - vm_compute. reflexivity.
  - reflexivity.
  - apply list_elem_of_singleton. reflexivity.
  - intros j other Hne Hj. positions j Hj. lia.
  - vm_compute. reflexivity.
  - vm_compute. reflexivity.
  - vm_compute. reflexivity.
Defined.

Lemma dates_are_set_and_ordered_witness :
  ∃ works',
    create_gantt_chart demo extract_from_estimate project_start = Ok works'
    ∧ length works' = length extract_from_estimate
    ∧ ∀ i work, extract_from_estimate !! i = Some work →
        ∃ work' s e duration delta,
          works' !! i = Some work'
          ∧ start_date work' = Some s
          ∧ end_date work' = Some e
          ∧ calculate_duration demo work = Ok duration
          ∧ calculate_duration demo work' = Ok duration
          ∧ Datetime.timedelta_days duration = Ok delta
          ∧ e - s = delta
          ∧ s ≤ e.
Proof.
  eexists. split; [vm_compute; reflexivity|].
  apply (dates_are_set_and_ordered demo project_start extract_from_estimate).
  - vm_compute. reflexivity.
  - vm_compute. reflexivity.
  - intros work Hin.
    repeat (apply elem_of_cons in Hin as [->|Hin]; [split; reflexivity|]).
    by apply elem_of_nil in Hin.
  - vm_compute. reflexivity.
Defined.

Lemma run_changes_only_the_dates_witness :
  ∃ works',
    create_gantt_chart demo extract_from_estimate project_start = Ok works'
    ∧ length works' = length extract_from_estimate
    ∧ ∀ i work, extract_from_estimate !! i = Some work →
        ∃ work', works' !! i = Some work'
          ∧ name work' = name work
          ∧ unit work' = unit work
          ∧ amount work' = amount work
          ∧ man_hours_per_unit work' = man_hours_per_unit work
          ∧ dependencies work' = dependencies work.
Proof.
  eexists. split; [vm_compute; reflexivity|].
  apply (run_changes_only_the_dates demo project_start extract_from_estimate).
  vm_compute. reflexivity.
Defined.

(** Works that come in with an end date are another matter: in
    [rescheduled], which a first run has left, the first work names
    only the second one, which carries the end date 2024-08-15, and on
    a second run the first work starts there. *)
Lemma later_dependency_with_end_date_is_resolved :
  ¬ (∀ self works sd works' i work,
        create_gantt_chart self works sd = Ok works' →
        works !! i = Some work →
        (∀ j other, works !! j = Some other →
                    name other ∈ dependencies work → (i < j)%nat) →
        ∃ work', works' !! i = Some work' ∧ start_date work' = Some sd).
Proof.
  intros Hclaim.
  edestruct (Hclaim demo rescheduled project_start) as (work' & Hwork' & Hstart).
  - vm_compute. reflexivity.
  - instantiate (2 := 0%nat). reflexivity.
  - intros j other Hj Hin. positions j Hj; [|lia].
    injection Hj as <-. apply list_elem_of_singleton in Hin. discriminate Hin.
  - injection Hwork' as <-. vm_compute in Hstart. discriminate Hstart.
Qed.

(** ** The run of [demonstrate_workflow] *)

(** None of the dependencies of [sample_data] is the name of a work of
    [sample_data], so that every work starts on 2024-06-01; the works
    end 75, 18.75, 15 and 15 days later. *)
Example sample_schedule :
  ∃ works',
    create_gantt_chart demo extract_from_estimate project_start = Ok works'
    ∧ (λ work, (start_date work, end_date work)) <$> works'
      = [ (Some project_start, Some (Datetime.of_ymd 2024 8 15));
          (Some project_start, Some (Datetime.of_ymd 2024 6 19 + 18 * 3600000000));
          (Some project_start, Some (Datetime.of_ymd 2024 6 16));
          (Some project_start, Some (Datetime.of_ymd 2024 6 16)) ].
Proof. eexists. split; vm_compute; reflexivity. Qed.

(** The exceptions of the run: no workers, and a duration beyond the
    range of [timedelta]. *)
Example no_workers_raises :
  create_gantt_chart {| workers_count := 0; workday_hours := 8 |}
    extract_from_estimate project_start
  = Raise ZeroDivisionError.
Proof. vm_compute. reflexivity. Qed.

Example huge_amount_raises :
  create_gantt_chart demo
    [{| name := "Устройство асфальтового покрытия"; unit := "м2";
        amount := PyFloat #1e300; man_hours_per_unit := PyFloat #1e300;
        dependencies := [];
        start_date := None; end_date := None |}]
    project_start
  = Raise OverflowError.
Proof. vm_compute. reflexivity. Qed.

(** [rescheduled] is what a first run leaves. *)
Example first_run :
  create_gantt_chart demo [lighting; pavement] project_start = Ok rescheduled.
Proof. vm_compute. reflexivity. Qed.

(** The run over [sample_data] completes by [run_completes]: the four
    works take 75, 18.75, 15 and 15 days. *)
Lemma run_completes_witness :
  ∃ works', create_gantt_chart demo extract_from_estimate project_start = Ok works'.
Proof.
  apply (run_completes demo project_start extract_from_estimate
           [75 * Datetime.us_per_day; 1620000000000;
            15 * Datetime.us_per_day; 15 * Datetime.us_per_day]
           project_start).
  - unfold extract_from_estimate, sample_data. cbn [fmap list_fmap].
    constructor; [split; [done|exists #75; split; vm_compute; reflexivity]|].
    constructor; [split; [done|exists #18.75; split; vm_compute; reflexivity]|].
    constructor; [split; [done|exists #15; split; vm_compute; reflexivity]|].
    constructor; [split; [done|exists #15; split; vm_compute; reflexivity]|].
    constructor.
  - vm_compute. split; discriminate.
  - intros work e Hin.
    repeat (apply elem_of_cons in Hin as [->|Hin]; [discriminate|]).
    by apply elem_of_nil in Hin.
  - vm_compute. discriminate.
Defined.

(** * Further properties of the analysis *)

Lemma foldl_score_agree (m1 m2 : gmap string bool)
    (cs : list (string * (string * pyfloat))) acc :
  (∀ c, c ∈ cs → flag m1 c.1 = flag m2 c.1) →
  foldl (score_criterion m1) acc cs = foldl (score_criterion m2) acc cs.
Proof.
  revert acc. induction cs as [|[k [doc w]] cs IH]; intros [score missing] Hget;
    simpl; [done|].
  pose proof (Hget (k, (doc, w)) ltac:(apply elem_of_cons; by left)) as Hk.
  unfold flag in Hk. simpl in Hk. rewrite Hk.
  apply IH. intros c Hc. apply Hget. apply elem_of_cons. by right.
Qed.

Lemma analyze_agree (m1 m2 : gmap string bool) :
  (∀ c, c ∈ criteria → flag m1 c.1 = flag m2 c.1) →
  analyze_project_completeness m1 = analyze_project_completeness m2.
Proof.
  intros Hget. unfold analyze_project_completeness.
  by rewrite (foldl_score_agree m1 m2).
Qed.

(** The analysis reads the four flags of [criteria] and nothing else. *)
Lemma analyze_flags (m : gmap string bool) :
  analyze_project_completeness m
  = analyze_project_completeness
      (flags (flag m "has_technical_task") (flag m "has_estimate")
             (flag m "has_schedule") (flag m "has_visual_plans")).
Proof.
  apply analyze_agree. intros c Hc. unfold criteria in Hc.
  repeat (apply elem_of_cons in Hc as [->|Hc]; [reflexivity|]).
  by apply elem_of_nil in Hc.
Qed.

Lemma analyze_total (m : gmap string bool) :
  ∃ r, analyze_project_completeness m = Ok r.
Proof.
  unfold analyze_project_completeness.
  destruct (foldl _ _ _) as [score missing].
  rewrite truediv_max_score. by eexists.
Qed.

(** X1: the missing documents are the document names of the criteria
    whose flag is not set, in the order of [criteria], whatever the
    mapping. *)
Theorem missing_documents_are_the_unset_flags (files_info : gmap string bool) :
  ∃ r, analyze_project_completeness files_info = Ok r
     ∧ missing_documents r
       = (λ c, c.2.1) <$> filter (λ c, flag files_info c.1 = false) criteria.
Proof.
  unfold analyze_project_completeness.
  assert (Hfold : ∀ cs acc,
             (foldl (score_criterion files_info) acc cs).2
             = acc.2 ++ ((λ c, c.2.1) <$> filter (λ c, flag files_info c.1 = false) cs)).
  { induction cs as [|[k [doc w]] cs IH]; intros [score missing]; simpl.
    - by rewrite app_nil_r.
    - rewrite filter_cons. cbn [fst snd].
      case_decide as Hk; unfold flag in Hk.
      + rewrite Hk, IH. simpl. by rewrite <- app_assoc.
      + apply not_false_iff_true in Hk. by rewrite Hk, IH. }
  specialize (Hfold criteria (#0, [])).
  destruct (foldl _ _ _) as [score missing].
  rewrite truediv_max_score. eexists. split; [reflexivity|]. exact Hfold.
Qed.

(** X2: a key that is not a key of [criteria] is never read: adding it
    to the mapping, with either value, changes nothing in the result. *)
Theorem unknown_key_is_ignored (files_info : gmap string bool)
    (key : string) (value : bool) :
  key ∉ (λ c, c.1) <$> criteria →
  analyze_project_completeness (<[key:=value]> files_info)
  = analyze_project_completeness files_info.
Proof.
  intros Hkey. apply analyze_agree. intros c Hc. unfold flag.
  rewrite lookup_insert_ne; [done|]. intros ->. apply Hkey.
  apply list_elem_of_fmap. by exists c.
Qed.

Lemma unknown_key_is_ignored_witness :
  analyze_project_completeness (<["has_budget":=true]> (all_flags false))
  = analyze_project_completeness (all_flags false).
Proof.
  apply (unknown_key_is_ignored (all_flags false) "has_budget" true).
  intros Hin. unfold criteria in Hin. simpl in Hin.
  repeat (apply elem_of_cons in Hin as [Hin|Hin]; [discriminate Hin|]).
  by apply elem_of_nil in Hin.
Defined.

(** X3: the analysis never raises, and the percentage lies between 0
    and 112.5 for every mapping: it can exceed 100. *)
Theorem percent_between_0_and_112_5 (files_info : gmap string bool) :
  ∃ r, analyze_project_completeness files_info = Ok r
     ∧ PyFloat.leb #0 (completeness_percent r) = true
     ∧ PyFloat.leb (completeness_percent r) #112.5 = true.
Proof.
  rewrite analyze_flags.
  destruct (flag files_info "has_technical_task"), (flag files_info "has_estimate"),
    (flag files_info "has_schedule"), (flag files_info "has_visual_plans");
    eexists; (split; [vm_compute; reflexivity|]); split; vm_compute; reflexivity.
Qed.

(** X4: the percentage is exactly 100 when the technical task, the
    estimate and the schedule are there and the visual plans are not,
    and in no other case. *)
Theorem percent_100_iff (files_info : gmap string bool) :
  ∃ r, analyze_project_completeness files_info = Ok r
     ∧ (completeness_percent r = #100
        ↔ flag files_info "has_technical_task" = true
          ∧ flag files_info "has_estimate" = true
          ∧ flag files_info "has_schedule" = true
          ∧ flag files_info "has_visual_plans" = false).
Proof.
  rewrite analyze_flags.
  destruct (flag files_info "has_technical_task"), (flag files_info "has_estimate"),
    (flag files_info "has_schedule"), (flag files_info "has_visual_plans");
    eexists; (split; [vm_compute; reflexivity|]);
    (split; [vm_compute; intros H; try discriminate H; repeat split
            |intros (H1 & H2 & H3 & H4); try discriminate; vm_compute; reflexivity]).
Qed.

(** X5: setting more flags never lowers the percentage and never adds a
    missing document. *)
Theorem more_flags_more_percent (files_info1 files_info2 : gmap string bool) :
  (∀ c, c ∈ criteria → flag files_info1 c.1 = true → flag files_info2 c.1 = true) →
  ∃ r1 r2,
    analyze_project_completeness files_info1 = Ok r1
    ∧ analyze_project_completeness files_info2 = Ok r2
    ∧ PyFloat.leb (completeness_percent r1) (completeness_percent r2) = true
    ∧ missing_documents r2 ⊆ missing_documents r1.
Proof.
  intros Hmore.
  assert (Hkey : ∀ k doc w, (k, (doc, w)) ∈ criteria →
                            flag files_info1 k = true → flag files_info2 k = true)
    by (intros k doc w Hin; exact (Hmore _ Hin)).
  pose proof (Hkey "has_technical_task" _ _ ltac:(repeat constructor)) as H1.
  pose proof (Hkey "has_estimate" _ _ ltac:(repeat constructor)) as H2.
  pose proof (Hkey "has_schedule" _ _ ltac:(repeat constructor)) as H3.
  pose proof (Hkey "has_visual_plans" _ _ ltac:(repeat constructor)) as H4.
  clear Hmore Hkey.
  rewrite (analyze_flags files_info1), (analyze_flags files_info2).
  destruct (flag files_info1 "has_technical_task"),
    (flag files_info2 "has_technical_task");
    try (exfalso; by specialize (H1 eq_refl)); clear H1;
  destruct (flag files_info1 "has_estimate"), (flag files_info2 "has_estimate");
    try (exfalso; by specialize (H2 eq_refl)); clear H2;
  destruct (flag files_info1 "has_schedule"), (flag files_info2 "has_schedule");
    try (exfalso; by specialize (H3 eq_refl)); clear H3;
  destruct (flag files_info1 "has_visual_plans"), (flag files_info2 "has_visual_plans");
    try (exfalso; by specialize (H4 eq_refl)); clear H4;
  eexists _, _; (split; [vm_compute; reflexivity|]);
    (split; [vm_compute; reflexivity|]);
    (split; [vm_compute; reflexivity|]);
    cbn [missing_documents]; intros d Hd;
    repeat (apply elem_of_cons in Hd as [->|Hd]; [set_solver|]);
    by apply elem_of_nil in Hd.
Qed.

Lemma more_flags_more_percent_witness :
  ∃ r1 r2,
    analyze_project_completeness (flags true false false false) = Ok r1
    ∧ analyze_project_completeness (flags true true false false) = Ok r2
    ∧ PyFloat.leb (completeness_percent r1) (completeness_percent r2) = true
    ∧ missing_documents r2 ⊆ missing_documents r1.
Proof.
  apply (more_flags_more_percent (flags true false false false)
           (flags true true false false)).
  intros c Hc. unfold criteria in Hc.
  repeat (apply elem_of_cons in Hc as [->|Hc];
          [vm_compute; intros H; first [reflexivity | discriminate H]|]).
  by apply elem_of_nil in Hc.
Defined.

(** X6: the recommendations depend on which documents are missing, not
    on their order or on how often one is listed; there are at most
    three. *)
Theorem recommendations_depend_on_membership (missing1 missing2 : list string) :
  (∀ doc, doc ∈ missing1 ↔ doc ∈ missing2) →
  _generate_recommendations missing1 = _generate_recommendations missing2
  ∧ (length (_generate_recommendations missing1) ≤ 3)%nat.
Proof.
  intros Hsame. unfold _generate_recommendations, contains.
  rewrite !(bool_decide_ext _ _ (Hsame _)).
  split; [done|].
  repeat (destruct (bool_decide _)); simpl; lia.
Qed.

Lemma recommendations_depend_on_membership_witness :
  _generate_recommendations ["График работ"; "Техническое задание"; "График работ"]
  = _generate_recommendations ["Техническое задание"; "График работ"]
  ∧ (length (_generate_recommendations
               ["График работ"; "Техническое задание"; "График работ"]) ≤ 3)%nat.
Proof.
  apply (recommendations_depend_on_membership
           ["График работ"; "Техническое задание"; "График работ"]
           ["Техническое задание"; "График работ"]).
  intros doc. split; intros Hin;
    repeat (apply elem_of_cons in Hin as [->|Hin]; [set_solver|]);
    by apply elem_of_nil in Hin.
Defined.

(** X7: the flag of the visual plans never changes the recommendations,
    and there is one recommendation for each missing document other
    than the visual plans. *)
Theorem visual_plans_recommend_nothing (files_info : gmap string bool) (value : bool) :
  ∃ r r',
    analyze_project_completeness files_info = Ok r
    ∧ analyze_project_completeness (<["has_visual_plans":=value]> files_info) = Ok r'
    ∧ recommendations r' = recommendations r
    ∧ length (missing_documents r)
      = (length (recommendations r)
         + if flag files_info "has_visual_plans" then 0 else 1)%nat.
Proof.
  rewrite (analyze_flags files_info), (analyze_flags (<[_:=_]> files_info)).
  unfold flag at 5 6 7 8. rewrite lookup_insert_eq, !lookup_insert_ne by done.
  fold (flag files_info "has_technical_task") (flag files_info "has_estimate")
    (flag files_info "has_schedule").
  destruct (flag files_info "has_technical_task"), (flag files_info "has_estimate"),
    (flag files_info "has_schedule"), (flag files_info "has_visual_plans"), value;
    eexists _, _; (split; [vm_compute; reflexivity|]);
    (split; [vm_compute; reflexivity|]); split; vm_compute; reflexivity.
Qed.

(** * Further properties of the schedule *)

Section Schedule.

Context (self : ProjectAnalyzer) (sd : datetime).

(** The turn of the loop for the work at position [i], in full: what
    makes it complete and what it leaves. *)
Lemma schedule_work_iff i works works' work :
  works !! i = Some work →
  schedule_work self sd i works = Ok works'
  ↔ ∃ duration delta s,
      calculate_duration self work = Ok duration
      ∧ Datetime.timedelta_days duration = Ok delta
      ∧ Datetime.add sd delta = Ok (sd + delta)
      ∧ s = match dependencies work with
            | [] => sd
            | _ :: _ => latest_end_date (<[i:=scheduled work sd delta]> works)
                          (dependencies work) sd
            end
      ∧ Datetime.add s delta = Ok (s + delta)
      ∧ works' = <[i:=scheduled work s delta]> works.
Proof.
  intros Hwork. unfold schedule_work. rewrite Hwork. split.
  - intros Hrun.
    apply bind_Ok in Hrun as (duration & Hduration & Hrun).
    apply bind_Ok in Hrun as (delta & Hdelta & Hrun).
    apply bind_Ok in Hrun as (e & He & Hrun).
    pose proof (add_Ok _ _ _ He) as ->.
    exists duration, delta. cbn beta zeta in Hrun.
    change (dependencies (set_end_date _ _)) with (dependencies work) in Hrun.
    destruct (dependencies work) as [|dep_name deps] eqn:Hdeps.
    + exists sd. by injection Hrun as <-.
    + eexists. do 3 (split; [done|]). split; [reflexivity|].
      rewrite Hdelta, Ok_bind in Hrun.
      apply bind_Ok in Hrun as (e & He' & Hrun).
      pose proof (add_Ok _ _ _ He') as ->. injection Hrun as <-.
      split; [exact He'|]. by rewrite list_insert_insert_eq.
  - intros (duration & delta & s & Hduration & Hdelta & Hadd & Hs & Hadd' & ->).
    rewrite Hduration, Ok_bind. cbn beta zeta.
    rewrite Hdelta, Ok_bind. cbn beta zeta.
    rewrite Hadd, Ok_bind. cbn beta zeta.
    change (dependencies (set_end_date _ _)) with (dependencies work).
    destruct (dependencies work) as [|dep_name deps] eqn:Hdeps; [by subst s|].
    rewrite Ok_bind. cbn beta zeta.
    change (latest_end_date _ _ sd) with
      (latest_end_date (<[i:=scheduled work sd delta]> works) (dep_name :: deps) sd).
    rewrite <- Hs, Hadd', Ok_bind. by rewrite list_insert_insert_eq.
Qed.

(** X8: no work starts before the project start, whatever its
    dependencies and its duration. *)
Theorem no_start_before_project_start works works' i work' :
  create_gantt_chart self works sd = Ok works' →
  works' !! i = Some work' →
  ∃ s, start_date work' = Some s ∧ sd ≤ s.
Proof.
  intros Hrun Hwork'.
  assert (is_Some (works !! i)) as [work Hwork].
  { apply lookup_lt_is_Some. rewrite <- (run_length _ _ _ _ Hrun).
    by eapply lookup_lt_Some. }
  destruct (run_at _ _ _ _ _ _ Hrun Hwork)
    as (scanned & duration & delta & s & _ & _ & _ & _ & _ & _ & Hs & Hfinal).
  rewrite Hfinal in Hwork'. injection Hwork' as <-.
  exists s. split; [done|]. subst s. apply settled_start_ge.
Qed.

(** X9: a work never starts before the end of a work that it names
    among its dependencies and that comes before it in the list. *)
Theorem earlier_dependency_ends_first works works' i j A' B' :
  create_gantt_chart self works sd = Ok works' →
  (i < j)%nat →
  works' !! i = Some A' →
  works' !! j = Some B' →
  name A' ∈ dependencies B' →
  ∃ e s, end_date A' = Some e ∧ start_date B' = Some s ∧ e ≤ s.
Proof.
  intros Hrun Hij HA' HB' Hdep.
  pose proof (run_length _ _ _ _ Hrun) as Hlen.
  assert (is_Some (works !! i)) as [A HA]
    by (apply lookup_lt_is_Some; rewrite <- Hlen; by eapply lookup_lt_Some).
  assert (is_Some (works !! j)) as [B HB]
    by (apply lookup_lt_is_Some; rewrite <- Hlen; by eapply lookup_lt_Some).
  destruct (run_at _ _ _ _ _ _ Hrun HA)
    as (_ & _ & delta_A & s_A & _ & _ & _ & _ & _ & _ & _ & Hfinal_A).
  destruct (run_at _ _ _ _ _ _ Hrun HB)
    as (scanned & _ & delta_B & s_B & _ & _ & _ & _ & Hbefore & _ & Hs_B & Hfinal_B).
  rewrite Hfinal_A in HA'. injection HA' as <-.
  rewrite Hfinal_B in HB'. injection HB' as <-.
  exists (s_A + delta_A), s_B. split; [done|]. split; [done|].
  change (dependencies (scheduled B s_B delta_B)) with (dependencies B) in Hdep.
  destruct (dependencies B) as [|dep_name deps] eqn:Hdeps;
    [by apply elem_of_nil in Hdep|].
  subst s_B.
  destruct (latest_end_date_spec scanned (dep_name :: deps) sd) as (_ & _ & Hub).
  apply (Hub (scheduled A s_A delta_A)); [|done|done].
  apply (list_elem_of_lookup_2 _ i). by rewrite (Hbefore _ Hij).
Qed.

(** X10: when the works after it come in without an end date and it
    does not name itself, a work starts at the project start or at the
    end of a work before it that it names. *)
Theorem start_is_project_start_or_dependency_end works works' i work :
  create_gantt_chart self works sd = Ok works' →
  works !! i = Some work →
  name work ∉ dependencies work →
  (∀ j other, (i < j)%nat → works !! j = Some other → end_date other = None) →
  ∃ work' s,
    works' !! i = Some work'
    ∧ start_date work' = Some s
    ∧ (s = sd
       ∨ ∃ k A', (k < i)%nat ∧ works' !! k = Some A'
                 ∧ name A' ∈ dependencies work ∧ end_date A' = Some s).
Proof.
  intros Hrun Hwork Hself Hfresh.
  destruct (run_at _ _ _ _ _ _ Hrun Hwork)
    as (scanned & duration & delta & s & _ & _
        & Hat & Hafter & Hbefore & _ & Hs & Hfinal).
  exists (scheduled work s delta), s. split; [done|]. split; [done|].
  destruct (dependencies work) as [|dep_name deps] eqn:Hdeps; [by left|].
  destruct (latest_end_date_spec scanned (dep_name :: deps) sd)
    as (_ & [Heq|(w & Hin & Hw & He)] & _); [left; congruence|].
  rewrite <- Hs in He.
  apply list_elem_of_lookup_1 in Hin as [k Hk].
  destruct (lt_eq_lt_dec k i) as [[Hlt| ->]|Hgt].
  - right. exists k, w. rewrite <- (Hbefore _ Hlt). done.
  - rewrite Hat in Hk. injection Hk as <-. done.
  - rewrite (Hafter _ Hgt) in Hk. rewrite (Hfresh _ _ Hgt Hk) in He. done.
Qed.

(** X11: with no workers or no hours in the day the run raises at the
    first work: [ZeroDivisionError], unless the product of the
    man-hours and the amount of that work raises first; only the empty
    list passes. *)
Theorem no_crew_raises works :
  workday_hours self * workers_count self = 0 →
  create_gantt_chart self works sd
  = match works with
    | [] => Ok []
    | work :: _ =>
        Num.mul (man_hours_per_unit work) (amount work)
        ≫= λ _, Raise ZeroDivisionError
    end.
Proof.
  intros Hzero. destruct works as [|work works]; [done|].
  unfold create_gantt_chart. simpl.
  unfold schedule_work. simpl.
  unfold calculate_duration. rewrite Hzero.
  destruct (Num.mul _ _) as [[a|x]|e]; reflexivity.
Qed.

(** X12: [calculate_duration] raises [ZeroDivisionError] exactly when
    the hours times the workers are zero and the product of the
    man-hours and the amount is computed, and never [ValueError]. *)
Theorem calculate_duration_raises work :
  (calculate_duration self work = Raise ZeroDivisionError
   ↔ workday_hours self * workers_count self = 0
     ∧ ∃ total, Num.mul (man_hours_per_unit work) (amount work) = Ok total)
  ∧ calculate_duration self work ≠ Raise ValueError.
Proof.
  unfold calculate_duration.
  assert (Hmul : ∀ x y, Num.mul x y ≠ Raise ZeroDivisionError
                        ∧ Num.mul x y ≠ Raise ValueError).
  { intros [a|x] [b|y]; simpl; try done;
      unfold PyFloat.of_int; destruct (binary_normalize _ _ _ _ _); done. }
  destruct (Hmul (man_hours_per_unit work) (amount work)) as [Hzde Hve].
  destruct (Num.mul _ _) as [total|e] eqn:Htotal; simpl.
  2:{ split; [|congruence]. split; [congruence|]. by intros [_ [total [=]]]. }
  clear Hzde Hve Hmul.
  destruct (Z.eqb_spec (workday_hours self * workers_count self) 0) as [Hz|Hne].
  - rewrite Hz. destruct total as [a|x]; simpl.
    + split; [|done]. split; [by eauto|done].
    + split; [|done]. split; [by eauto|done].
  - apply Z.eqb_neq in Hne as Hne'. destruct total as [a|x]; simpl.
    + rewrite Hne'. destruct (PyFloat.div _ _); split; try done;
        split; try done; by intros [? _].
    + unfold PyFloat.truediv_int, PyFloat.of_int.
      destruct (binary_normalize _ _ _ _ _); simpl; rewrite ?Hne';
        split; try done; split; try done; by intros [? _].
Qed.

(** X13: with an amount and man-hours per unit that are not below zero
    and a positive number of workers and of hours, the duration is
    never below zero. *)
Theorem duration_is_not_below_zero work duration :
  0 < workers_count self → 0 < workday_hours self →
  Num.not_below_zero (amount work) = true →
  Num.not_below_zero (man_hours_per_unit work) = true →
  calculate_duration self work = Ok duration →
  PyFloat.ltb duration #0 = false.
Proof.
  intros Hw Hh Hamount Hhours Hduration.
  pose proof (calculate_duration_not_negative _ _ _ Hw Hh Hamount Hhours Hduration)
    as Hsign.
  rewrite lit_0. by destruct duration as [s|[]| |[] m e].
Qed.

(** X14: the duration that the table shows is the [timedelta] of the
    computed duration in whole days, rounded down. *)
Theorem table_shows_whole_days works works' i work' :
  create_gantt_chart self works sd = Ok works' →
  works' !! i = Some work' →
  ∃ duration delta days,
    calculate_duration self work' = Ok duration
    ∧ Datetime.timedelta_days duration = Ok delta
    ∧ duration_days work' = Some days
    ∧ days * Datetime.us_per_day ≤ delta < (days + 1) * Datetime.us_per_day.
Proof.
  intros Hrun Hwork'.
  assert (is_Some (works !! i)) as [work Hwork].
  { apply lookup_lt_is_Some. rewrite <- (run_length _ _ _ _ Hrun).
    by eapply lookup_lt_Some. }
  destruct (run_at _ _ _ _ _ _ Hrun Hwork)
    as (_ & duration & delta & s & Hduration & Hdelta & _ & _ & _ & _ & _ & Hfinal).
  rewrite Hfinal in Hwork'. injection Hwork' as <-.
  exists duration, delta, (delta / Datetime.us_per_day).
  split; [done|]. split; [done|]. split.
  - unfold duration_days. simpl. do 2 f_equal. lia.
  - unfold Datetime.us_per_day.
    pose proof (Z.div_mod delta 86400000000 ltac:(lia)).
    pose proof (Z.mod_pos_bound delta 86400000000 ltac:(lia)). lia.
Qed.

End Schedule.

(** * Runs compared *)

Section Runs.

Context (self : ProjectAnalyzer) (sd : datetime).

(** Works without an end date are invisible to the scan. *)
Lemma scan_works_app_fresh works extra dep_name m :
  (∀ w, w ∈ extra → end_date w = None) →
  scan_works (works ++ extra) dep_name m = scan_works works dep_name m.
Proof.
  intros Hfresh. unfold scan_works. rewrite foldl_app.
  generalize (foldl
    (λ max_end_date dep_work,
       if String.eqb (name dep_work) dep_name then
         match end_date dep_work with
         | Some e => Z.max max_end_date e
         | None => max_end_date
         end
       else max_end_date) m works) as m'.
  induction extra as [|w extra IH]; intros m'; simpl; [done|].
  rewrite (Hfresh w) by (apply elem_of_cons; by left).
  destruct (String.eqb _ _); apply IH; intros w' Hw'; apply Hfresh;
    apply elem_of_cons; by right.
Qed.

Lemma latest_end_date_app_fresh works extra deps m :
  (∀ w, w ∈ extra → end_date w = None) →
  latest_end_date (works ++ extra) deps m = latest_end_date works deps m.
Proof.
  intros Hfresh. unfold latest_end_date. revert m.
  induction deps as [|dep_name deps IH]; intros m; simpl; [done|].
  by rewrite scan_works_app_fresh, IH.
Qed.

Lemma schedule_work_app_fresh i works extra works'' :
  (∀ w, w ∈ extra → end_date w = None) →
  (i < length works)%nat →
  schedule_work self sd i (works ++ extra) = Ok works'' →
  ∃ works', schedule_work self sd i works = Ok works'
            ∧ works'' = works' ++ extra
            ∧ length works' = length works.
Proof.
  intros Hfresh Hi Hrun.
  destruct (lookup_lt_is_Some_2 works i Hi) as [work Hwork].
  assert (Hwork' : (works ++ extra) !! i = Some work)
    by (by rewrite lookup_app_l).
  destruct (proj1 (schedule_work_iff self sd _ _ _ _ Hwork') Hrun)
    as (duration & delta & s & Hduration & Hdelta & Hadd & Hs & Hadd' & ->).
  rewrite insert_app_l in Hs by done.
  rewrite latest_end_date_app_fresh in Hs by done.
  exists (<[i:=scheduled work s delta]> works). split; [|split].
  - apply (schedule_work_iff self sd _ _ _ _ Hwork).
    by exists duration, delta, s.
  - by rewrite insert_app_l.
  - apply length_insert.
Qed.

Lemma for_each_app_fresh positions : ∀ works extra works'',
  (∀ w, w ∈ extra → end_date w = None) →
  (∀ i, i ∈ positions → (i < length works)%nat) →
  for_each (schedule_work self sd) positions (works ++ extra) = Ok works'' →
  ∃ works', for_each (schedule_work self sd) positions works = Ok works'
            ∧ works'' = works' ++ extra
            ∧ length works' = length works.
Proof.
  induction positions as [|i positions IH]; intros works extra works'' Hfresh Hin;
    simpl.
  { intros [= <-]. by exists works. }
  intros (works1' & Hstep & Hrun)%bind_Ok.
  destruct (schedule_work_app_fresh i works extra works1' Hfresh) as
    (works1 & Hstep1 & -> & Hlen1); [apply Hin; apply elem_of_cons; by left|done|].
  destruct (IH works1 extra works'' Hfresh) as (works' & Hrun' & -> & Hlen');
    [|done|].
  { intros k Hk. rewrite Hlen1. apply Hin. apply elem_of_cons. by right. }
  exists works'. rewrite Hstep1, Ok_bind. split; [done|]. split; [done|]. lia.
Qed.

(** X15: works that are put at the end of the list without an end date
    change nothing for the works before them: the run over the shorter
    list completes too, with the same works. *)
Theorem appended_works_change_nothing works extra works'' :
  (∀ w, w ∈ extra → end_date w = None) →
  create_gantt_chart self (works ++ extra) sd = Ok works'' →
  create_gantt_chart self works sd = Ok (take (length works) works'').
Proof.
  intros Hfresh. unfold create_gantt_chart.
  rewrite length_app, seq_app, for_each_app.
  intros (mid & Hmid & Hrest)%bind_Ok.
  assert (Hpositions : ∀ i, i ∈ seq 0 (length works) → (i < length works)%nat)
    by (intros i Hi; apply elem_of_seq in Hi; lia).
  destruct (for_each_app_fresh _ works extra mid Hfresh Hpositions Hmid)
    as (works' & Hrun & -> & Hlen).
  rewrite Hrun. f_equal.
  destruct (for_each_schedule_frame _ _ _ _ _ Hrest) as (Hlen'' & Hother & _).
  apply list_eq. intros j. destruct (decide (j < length works)%nat) as [Hj|Hj].
  - rewrite lookup_take_lt by done.
    rewrite Hother by (rewrite elem_of_seq; lia).
    by rewrite lookup_app_l by lia.
  - rewrite lookup_take_ge by lia. apply lookup_ge_None. lia.
Qed.

(** The scan reads only the works that are named. *)
Lemma scan_works_agree works1 works2 (deps : list string) dep_name m :
  dep_name ∈ deps →
  Forall2 (alike deps) works1 works2 →
  scan_works works1 dep_name m = scan_works works2 dep_name m.
Proof.
  intros Hdep Hagree. unfold scan_works. revert m.
  induction Hagree as [|w1 w2 works1 works2 [->|[H1 H2]] _ IH]; intros m; simpl;
    [done|apply IH|].
  destruct (String.eqb_spec (name w1) dep_name) as [Heq|_]; [by subst|].
  destruct (String.eqb_spec (name w2) dep_name) as [Heq|_]; [by subst|].
  apply IH.
Qed.

Lemma latest_end_date_agree works1 works2 (deps : list string) m :
  Forall2 (alike deps) works1 works2 →
  latest_end_date works1 deps m = latest_end_date works2 deps m.
Proof.
  intros Hagree. unfold latest_end_date.
  assert (Hsub : ∀ names, names ⊆ deps → ∀ m,
             foldl (λ max_end_date dep_name, scan_works works1 dep_name max_end_date)
                   m names
             = foldl (λ max_end_date dep_name, scan_works works2 dep_name max_end_date)
                     m names).
  { induction names as [|dep_name names IH]; intros Hnames m'; simpl; [done|].
    rewrite (scan_works_agree works1 works2 deps) by (done || set_solver).
    apply IH. set_solver. }
  by apply Hsub.
Qed.

(** The run, seen from position [i], with the additions of dates that
    it has made. *)
Lemma run_at_adds works works' i work :
  create_gantt_chart self works sd = Ok works' →
  works !! i = Some work →
  ∃ scanned duration delta s,
    calculate_duration self work = Ok duration
    ∧ Datetime.timedelta_days duration = Ok delta
    ∧ Datetime.add sd delta = Ok (sd + delta)
    ∧ Datetime.add s delta = Ok (s + delta)
    ∧ length scanned = length works
    ∧ scanned !! i = Some (scheduled work sd delta)
    ∧ (∀ j, (i < j)%nat → scanned !! j = works !! j)
    ∧ (∀ j, (j < i)%nat → scanned !! j = works' !! j)
    ∧ s = match dependencies work with
          | [] => sd
          | _ :: _ => latest_end_date scanned (dependencies work) sd
          end
    ∧ works' !! i = Some (scheduled work s delta).
Proof.
  intros Hrun Hwork. unfold create_gantt_chart in Hrun.
  pose proof (lookup_lt_Some _ _ _ Hwork) as Hi.
  rewrite (seq_split_at _ i Hi), for_each_app in Hrun.
  apply bind_Ok in Hrun as (before & Hbefore & Hrun). simpl in Hrun.
  apply bind_Ok in Hrun as (after & Hstep & Hafter).
  destruct (for_each_schedule_frame _ _ _ _ _ Hbefore) as (Hlen & Hin & _).
  destruct (for_each_schedule_frame _ _ _ _ _ Hafter) as (_ & Hout & _).
  assert (Hwork' : before !! i = Some work).
  { rewrite Hin; [done|]. rewrite elem_of_seq. lia. }
  destruct (proj1 (schedule_work_iff self sd _ _ _ _ Hwork') Hstep)
    as (duration & delta & s & Hduration & Hdelta & Hadd & Hs & Hadd' & ->).
  exists (<[i:=scheduled work sd delta]> before), duration, delta, s.
  do 4 (split; [done|]). split; [|split; [|split; [|split; [|split]]]].
  - by rewrite length_insert.
  - apply list_lookup_insert_eq. lia.
  - intros j Hj. rewrite list_lookup_insert_ne by lia.
    apply Hin. rewrite elem_of_seq. lia.
  - intros j Hj. rewrite Hout by (rewrite elem_of_seq; lia).
    by rewrite !list_lookup_insert_ne by lia.
  - done.
  - rewrite Hout by (rewrite elem_of_seq; lia).
    apply list_lookup_insert_eq. lia.
Qed.

Lemma for_each_fixed positions (works : list ConstructionWork) :
  (∀ i, i ∈ positions → schedule_work self sd i works = Ok works) →
  for_each (schedule_work self sd) positions works = Ok works.
Proof.
  induction positions as [|i positions IH]; intros Hfixed; simpl; [done|].
  rewrite Hfixed, Ok_bind by (apply elem_of_cons; by left).
  apply IH. intros k Hk. apply Hfixed. apply elem_of_cons. by right.
Qed.

(** X16: when every dependency that names a work of the list names a
    work placed before the one that depends on it, a second run over
    the works that a run has left changes nothing. *)
Theorem second_run_changes_nothing works works' :
  create_gantt_chart self works sd = Ok works' →
  (∀ i j work other, works !! i = Some work → works !! j = Some other →
                     name other ∈ dependencies work → (j < i)%nat) →
  create_gantt_chart self works' sd = Ok works'.
Proof.
  intros Hrun Hordered. unfold create_gantt_chart.
  pose proof (run_length _ _ _ _ Hrun) as Hlen.
  destruct (for_each_schedule_frame _ _ _ _ _ Hrun) as (_ & _ & Hdescr).
  apply for_each_fixed. intros i Hi. apply elem_of_seq in Hi.
  destruct (lookup_lt_is_Some_2 works i ltac:(lia)) as [work Hwork].
  destruct (run_at_adds _ _ _ _ Hrun Hwork)
    as (scanned & duration & delta & s & Hduration & Hdelta & Hadd & Hadd'
        & Hlen_scanned & Hat & Hafter & Hbefore & Hs & Hfinal).
  apply (schedule_work_iff self sd _ _ _ _ Hfinal).
  exists duration, delta, s. do 3 (split; [done|]). split; [|split; [done|]].
  - change (dependencies (scheduled work s delta)) with (dependencies work).
    rewrite Hs. destruct (dependencies work) as [|dep_name deps] eqn:Hdeps; [done|].
    apply latest_end_date_agree.
    apply Forall2_same_length_lookup_2; [by rewrite length_insert; lia|].
    intros k w1 w2 Hw1 Hw2.
    destruct (lt_eq_lt_dec k i) as [[Hlt| ->]|Hgt].
    + left. rewrite list_lookup_insert_ne in Hw2 by lia.
      rewrite (Hbefore _ Hlt), Hw2 in Hw1. by injection Hw1.
    + left. rewrite list_lookup_insert_eq in Hw2 by lia.
      rewrite Hat in Hw1. injection Hw1 as <-. by injection Hw2 as <-.
    + right. rewrite list_lookup_insert_ne in Hw2 by lia.
      rewrite (Hafter _ Hgt) in Hw1.
      assert (name w2 = name w1) as Hname.
      { specialize (Hdescr k). rewrite Hw1, Hw2 in Hdescr.
        unfold description in Hdescr. simpl in Hdescr. by injection Hdescr. }
      rewrite Hname. rewrite <- Hdeps.
      split; intros Hin; specialize (Hordered _ _ _ _ Hwork Hw1 Hin); lia.
  - symmetry. by apply list_insert_id.
Qed.

End Runs.

(** * The further properties on concrete runs *)

Lemma no_start_before_project_start_witness :
  ∃ works' work',
    create_gantt_chart demo [pavement; lighting] project_start = Ok works'
    ∧ works' !! 1%nat = Some work'
    ∧ ∃ s, start_date work' = Some s ∧ project_start ≤ s.
Proof.
  do 2 eexists. split; [vm_compute; reflexivity|]. split; [reflexivity|].
  eapply (no_start_before_project_start demo project_start
            [pavement; lighting] _ 1).
  - vm_compute. reflexivity.
  - reflexivity.
Defined.

Lemma earlier_dependency_ends_first_witness :
  ∃ works' A' B',
    create_gantt_chart demo [pavement; lighting] project_start = Ok works'
    ∧ works' !! 0%nat = Some A'
    ∧ works' !! 1%nat = Some B'
    ∧ ∃ e s, end_date A' = Some e ∧ start_date B' = Some s ∧ e ≤ s.
Proof.
  do 3 eexists. split; [vm_compute; reflexivity|].
  split; [reflexivity|]. split; [reflexivity|].
  eapply (earlier_dependency_ends_first demo project_start
            [pavement; lighting] _ 0 1).
  - vm_compute. reflexivity.
  - lia.
  - reflexivity.
  - reflexivity.
  - apply list_elem_of_singleton. reflexivity.
Defined.

Lemma start_is_project_start_or_dependency_end_witness :
  ∃ works',
    create_gantt_chart demo [pavement; lighting] project_start = Ok works'
    ∧ ∃ work' s,
        works' !! 1%nat = Some work'
        ∧ start_date work' = Some s
        ∧ (s = project_start
           ∨ ∃ k A', (k < 1)%nat ∧ works' !! k = Some A'
                     ∧ name A' ∈ dependencies lighting ∧ end_date A' = Some s).
Proof.
  eexists. split; [vm_compute; reflexivity|].
  apply (start_is_project_start_or_dependency_end demo project_start
           [pavement; lighting] _ 1 lighting).
  - vm_compute. reflexivity.
  - reflexivity.
  - intros Hin. apply list_elem_of_singleton in Hin. discriminate Hin.
  - intros j other Hlt Hj. positions j Hj; lia.
Defined.

Lemma no_crew_raises_witness :
  create_gantt_chart {| workers_count := 0; workday_hours := 8 |}
    extract_from_estimate project_start
  = Raise ZeroDivisionError.
Proof.
  apply (no_crew_raises {| workers_count := 0; workday_hours := 8 |}
           project_start extract_from_estimate).
  reflexivity.
Defined.

Lemma duration_is_not_below_zero_witness : PyFloat.ltb #75 #0 = false.
Proof.
  apply (duration_is_not_below_zero demo pavement #75).
  - vm_compute. reflexivity.
  - vm_compute. reflexivity.
  - reflexivity.
  - reflexivity.
  - vm_compute. reflexivity.
Defined.

Lemma table_shows_whole_days_witness :
  ∃ works' work',
    create_gantt_chart demo extract_from_estimate project_start = Ok works'
    ∧ works' !! 1%nat = Some work'
    ∧ ∃ duration delta days,
        calculate_duration demo work' = Ok duration
        ∧ Datetime.timedelta_days duration = Ok delta
        ∧ duration_days work' = Some days
        ∧ days * Datetime.us_per_day ≤ delta < (days + 1) * Datetime.us_per_day.
Proof.
  do 2 eexists. split; [vm_compute; reflexivity|]. split; [reflexivity|].
  eapply (table_shows_whole_days demo project_start extract_from_estimate _ 1).
  - vm_compute. reflexivity.
  - reflexivity.
Defined.

(** The second work of [sample_data] takes 18.75 days and shows 18. *)
Example benches_show_18_days :
  ∃ works' work',
    create_gantt_chart demo extract_from_estimate project_start = Ok works'
    ∧ works' !! 1%nat = Some work'
    ∧ calculate_duration demo work' = Ok #18.75
    ∧ duration_days work' = Some 18.
Proof.
  do 2 eexists. split; [vm_compute; reflexivity|]. split; [reflexivity|].
  split; vm_compute; reflexivity.
Qed.

Lemma appended_works_change_nothing_witness :
  ∃ works'',
    create_gantt_chart demo ([pavement] ++ [lighting]) project_start = Ok works''
    ∧ create_gantt_chart demo [pavement] project_start
      = Ok (take (length [pavement]) works'').
Proof.
  eexists. split; [vm_compute; reflexivity|].
  apply (appended_works_change_nothing demo project_start [pavement] [lighting]).
  - intros w Hin. apply list_elem_of_singleton in Hin as ->. reflexivity.
  - vm_compute. reflexivity.
Defined.

Lemma second_run_changes_nothing_witness :
  ∃ works',
    create_gantt_chart demo [pavement; lighting] project_start = Ok works'
    ∧ create_gantt_chart demo works' project_start = Ok works'.
Proof.
  eexists. split; [vm_compute; reflexivity|].
  apply (second_run_changes_nothing demo project_start [pavement; lighting]).
  - vm_compute. reflexivity.
  - intros i j work other Hi Hj Hin.
    positions i Hi; injection Hi as <-;
      [by apply elem_of_nil in Hin|].
    positions j Hj; injection Hj as <-; [lia|].
    apply list_elem_of_singleton in Hin. discriminate Hin.
Defined.

(** An int amount beyond the floats, beside float man-hours, raises
    [OverflowError] in the product, before the division by no workers
    has its turn. *)
Example huge_int_amount_raises_first :
  create_gantt_chart {| workers_count := 0; workday_hours := 8 |}
    [{| name := "Устройство асфальтового покрытия"; unit := "м2";
        amount := PyInt (10 ^ 400); man_hours_per_unit := PyFloat #2.4;
        dependencies := []; start_date := None; end_date := None |}]
    project_start
  = Raise OverflowError.
Proof. vm_compute. reflexivity. Qed.
